(** * ATS resume scorer: extraction and scoring engine

    A shallow embedding of [backend/ats_scorer.py], [backend/ml_model.py],
    and of the parts of [backend/resume_parser.py] and
    [backend/job_parser.py] that feed the scorer.

    Conventions of the embedding.
    - A Python [str] is a [string]; one [ascii] stands for one code point
      in the range U+0000 .. U+00FF.  Patterns and delimiters of the source
      that mention code points above that range (the bullet U+2022, the
      dashes U+2013 and U+2014) keep them, as numbers.
    - A Python [set] of strings is a [gset string]; the order in which the
      interpreter iterates over a set is left abstract (class [SetOrder]).
    - A Python [float] is an exact rational ([Qc]); [int] is [Z].
    - [re] is a backtracking matcher over a pattern syntax tree (module
      [Re]); [difflib.SequenceMatcher.ratio] is module [Difflib].
    - Where a comment quotes a pattern of the source, a space is put between
      a star and a closing parenthesis that follows it. *)

From Stdlib Require Import ZArith QArith Qcanon Ascii String List Bool Lia.
From Stdlib Require Import DecimalString Lqa.
From stdpp Require Import base decidable option list sets gmap strings numbers.

Local Open Scope Z_scope.

Set Warnings "-clear-no-such-hyp".

(** A call that returns a value or raises an exception. *)
Inductive outcome (A : Type) :=
| Returned (x : A)
| Raised.
Arguments Returned {A} x.
Arguments Raised {A}.

(* ===================================================================== *)
(** ** Python strings *)
(* ===================================================================== *)

Module Py.

Definition code (c : ascii) : N := N_of_ascii c.

Definition between (lo hi : N) (c : ascii) : bool :=
  (lo <=? code c)%N && (code c <=? hi)%N.

(** [str.isspace] on one code point, which is also [\s] of [re]. *)
Definition isspace (c : ascii) : bool :=
  between 9 13 c || between 28 32 c || (code c =? 133)%N || (code c =? 160)%N.

(** [\d] of [re]: the decimal digits of the range. *)
Definition isdigit (c : ascii) : bool := between 48 57 c.

(** [\w] of [re]: alphanumeric code points and the underscore. *)
Definition isword (c : ascii) : bool :=
  between 48 57 c || between 65 90 c || between 97 122 c || (code c =? 95)%N
  || (code c =? 170)%N || between 178 179 c || (code c =? 181)%N
  || between 185 186 c || between 188 190 c
  || between 192 214 c || between 216 246 c || between 248 255 c.

Definition has_lower (c : ascii) : bool :=
  between 65 90 c || (between 192 222 c && negb (code c =? 215)%N).

Definition has_upper (c : ascii) : bool :=
  between 97 122 c || (between 224 254 c && negb (code c =? 247)%N).

Definition lower_char (c : ascii) : ascii :=
  if has_lower c then ascii_of_N (code c + 32) else c.

Definition upper_char (c : ascii) : ascii :=
  if has_upper c then ascii_of_N (code c - 32) else c.

(** [s.lower()] *)
Fixpoint lower (s : string) : string :=
  match s with
  | EmptyString => EmptyString
  | String c t => String (lower_char c) (lower t)
  end.

(** [s.title()], used by the source on the entries of its skill table. *)
Fixpoint title_from (prev_cased : bool) (s : string) : string :=
  match s with
  | EmptyString => EmptyString
  | String c t =>
      if has_lower c || has_upper c
      then String (if prev_cased then lower_char c else upper_char c)
                  (title_from true t)
      else String c (title_from false t)
  end.

Definition title (s : string) : string := title_from false s.

Fixpoint lstrip (s : string) : string :=
  match s with
  | String c t => if isspace c then lstrip t else s
  | EmptyString => EmptyString
  end.

(** Drops trailing whitespace: a character is kept when it is not a space
    or when something is kept after it. *)
Fixpoint rstrip (s : string) : string :=
  match s with
  | EmptyString => EmptyString
  | String c t =>
      match rstrip t with
      | EmptyString => if isspace c then EmptyString else String c EmptyString
      | r => String c r
      end
  end.

(** [s.strip()] *)
Definition strip (s : string) : string := rstrip (lstrip s).

(** [needle in hay] *)
Fixpoint contains (needle hay : string) : bool :=
  String.prefix needle hay ||
  match hay with
  | EmptyString => false
  | String _ t => contains needle t
  end.

(** [s.split(d)] for a delimiter [d] of one code point, given by number:
    the pieces between the occurrences of [d]; always at least one. *)
Fixpoint split_at (d : N) (s : string) : list string :=
  match s with
  | EmptyString => [EmptyString]
  | String c t =>
      if (code c =? d)%N then EmptyString :: split_at d t
      else match split_at d t with
           | p :: ps => String c p :: ps
           | [] => [String c EmptyString]
           end
  end.

(** [d in s] for a delimiter of one code point. *)
Fixpoint has_code (d : N) (s : string) : bool :=
  match s with
  | EmptyString => false
  | String c t => (code c =? d)%N || has_code d t
  end.

(** [s.split()]: the maximal runs of characters that are not whitespace.
    [cur] is the run being read, reversed. *)
Fixpoint words_from (cur : list ascii) (s : string) : list string :=
  let flush := match cur with
               | [] => []
               | _ => [string_of_list_ascii (rev cur)]
               end in
  match s with
  | EmptyString => flush
  | String c t =>
      if isspace c then flush ++ words_from [] t
      else words_from (c :: cur) t
  end.

Definition split_ws (s : string) : list string := words_from [] s.

(** [sep.join(l)] *)
Fixpoint join (sep : string) (l : list string) : string :=
  match l with
  | [] => EmptyString
  | [x] => x
  | x :: t => (x +:+ sep +:+ join sep t)%string
  end.

(** [l.append(x)] *)
Definition append {A} (l : list A) (x : A) : list A := l ++ [x].

(** [str(n)] for an [int]. *)
Definition str_of_int (n : Z) : string := NilZero.string_of_int (Z.to_int n).

(** The number that a string of decimal digits writes. *)
Definition digit_val (c : ascii) : Z := Z.of_N (code c) - 48.

Fixpoint int_from (acc : Z) (s : string) : Z :=
  match s with
  | EmptyString => acc
  | String c t => int_from (10 * acc + digit_val c) t
  end.

Definition int_of_digits (s : string) : Z := int_from 0 s.

(** [int(s)] on a string of decimal digits: the interpreter refuses a
    string of more than 4300 digits, leading zeros counted, and raises
    [ValueError]. *)
Definition int_max_str_digits : nat := 4300.

Definition int_of (s : string) : outcome Z :=
  if (int_max_str_digits <? String.length s)%nat then Raised
  else Returned (int_of_digits s).

(** [round(x, nd)]: to the nearest multiple of [10^-nd], ties to even.  A
    tie is judged on the exact rational, where the interpreter judges it on
    the binary value of the float. *)
Definition round_half_even (q : Q) : Z :=
  let n := Qnum q in
  let d := Zpos (Qden q) in
  let f := n / d in
  let r := n mod d in
  match 2 * r ?= d with
  | Lt => f
  | Gt => f + 1
  | Eq => if Z.even f then f else f + 1
  end.

Definition round (x : Qc) (nd : nat) : Qc :=
  let p := 10 ^ Z.of_nat nd in
  Q2Qc (inject_Z (round_half_even (this x * inject_Z p)) / inject_Z p).

End Py.

(* ===================================================================== *)
(** ** The [re] module: patterns and a backtracking matcher *)
(* ===================================================================== *)

Module Re.

(** Members of a bracketed set, by code point. *)
Inductive citem :=
| One (c : N)
| Range (lo hi : N)
| Space          (* \s *)
| Digit          (* \d *)
| Word.          (* \w *)

Inductive regex :=
| Eps
| Lit (c : ascii)                     (* one literal character *)
| CSet (negated : bool) (items : list citem)
| Seq (a b : regex)
| Alt (a b : regex)                   (* a|b, left first *)
| Star (a : regex)                    (* a*, greedy *)
| Group (n : nat) (a : regex)         (* capturing group number n *)
| NotAhead (a : regex)                (* (?!a) *)
| WordB.                              (* \b *)

Definition Plus (a : regex) : regex := Seq a (Star a).
Definition Opt (a : regex) : regex := Alt a Eps.

Fixpoint Times (n : nat) (a : regex) : regex :=
  match n with
  | O => Eps
  | S m => Seq a (Times m a)
  end.

Fixpoint Str (s : string) : regex :=
  match s with
  | EmptyString => Eps
  | String c EmptyString => Lit c
  | String c t => Seq (Lit c) (Str t)
  end.

Fixpoint Cat (l : list regex) : regex :=
  match l with
  | [] => Eps
  | [a] => a
  | a :: t => Seq a (Cat t)
  end.

Fixpoint Or (l : list regex) : regex :=
  match l with
  | [] => CSet false []
  | [a] => a
  | a :: t => Alt a (Or t)
  end.

Definition in_item (c : ascii) (i : citem) : bool :=
  match i with
  | One x => (Py.code c =? x)%N
  | Range lo hi => Py.between lo hi c
  | Space => Py.isspace c
  | Digit => Py.isdigit c
  | Word => Py.isword c
  end.

Definition in_items (items : list citem) (c : ascii) : bool :=
  existsb (in_item c) items.

(** [ic] is the IGNORECASE flag. *)
Definition lit_ok (ic : bool) (p c : ascii) : bool :=
  if ic then bool_decide (Py.lower_char p = Py.lower_char c)
  else bool_decide (p = c).

Definition set_ok (ic : bool) (negated : bool) (items : list citem) (c : ascii) : bool :=
  xorb negated
    (in_items items c
     || (ic && (in_items items (Py.lower_char c) || in_items items (Py.upper_char c)))).

(** A position in the subject: the characters still to read, the one just
    before them, the index, and the groups closed so far. *)
Record mstate := MState {
  rest : list ascii;
  prev : option ascii;
  pos : nat;
  groups : list (nat * (nat * nat))
}.

Definition advance (c : ascii) (t : list ascii) (s : mstate) : mstate :=
  MState t (Some c) (S (pos s)) (groups s).

Definition set_group (n : nat) (from : nat) (s : mstate) : mstate :=
  MState (rest s) (prev s) (pos s) ((n, (from, pos s)) :: groups s).

Definition word_opt (o : option ascii) : bool :=
  match o with
  | Some c => Py.isword c
  | None => false
  end.

Definition at_boundary (s : mstate) : bool :=
  xorb (word_opt (prev s)) (word_opt (head (rest s))).

Definition or_else {A} (x y : option A) : option A :=
  match x with
  | Some _ => x
  | None => y
  end.

(** [run ic r k s]: match [r] at [s], then continue with [k]; alternatives
    are tried in order and the first success of the whole is returned. *)
Fixpoint run (ic : bool) (r : regex) (k : mstate -> option mstate)
         (s : mstate) : option mstate :=
  match r with
  | Eps => k s
  | Lit p =>
      match rest s with
      | c :: t => if lit_ok ic p c then k (advance c t s) else None
      | [] => None
      end
  | CSet negated items =>
      match rest s with
      | c :: t => if set_ok ic negated items c then k (advance c t s) else None
      | [] => None
      end
  | Seq a b => run ic a (run ic b k) s
  | Alt a b => or_else (run ic a k s) (run ic b k s)
  | Star a =>
      (fix loop (fuel : nat) (s : mstate) : option mstate :=
         match fuel with
         | O => k s
         | S fuel' =>
             or_else
               (run ic a
                  (fun s' => if (length (rest s') <? length (rest s))%nat
                             then loop fuel' s' else None) s)
               (k s)
         end) (length (rest s)) s
  | Group n a => run ic a (fun s' => k (set_group n (pos s) s')) s
  | NotAhead a =>
      match run ic a Some s with
      | Some _ => None
      | None => k s
      end
  | WordB => if at_boundary s then k s else None
  end.

(** A match object: span, and the spans of the groups. *)
Record rmatch := RMatch {
  m_start : nat;
  m_end : nat;
  m_groups : list (nat * (nat * nat));
  m_after : mstate
}.

Definition match_at (ic : bool) (r : regex) (s : mstate) : option rmatch :=
  match run ic r Some (MState (rest s) (prev s) (pos s) []) with
  | Some e => Some (RMatch (pos s) (pos e) (groups e) e)
  | None => None
  end.

(** Leftmost match at or after [s]. *)
Fixpoint search_from (ic : bool) (r : regex) (fuel : nat) (s : mstate)
  : option rmatch :=
  match match_at ic r s with
  | Some m => Some m
  | None =>
      match fuel, rest s with
      | S fuel', c :: t => search_from ic r fuel' (advance c t s)
      | _, _ => None
      end
  end.

Definition start_of (text : string) : mstate :=
  MState (list_ascii_of_string text) None 0 [].

(** [re.search(r, text)] *)
Definition search (ic : bool) (r : regex) (text : string) : option rmatch :=
  search_from ic r (String.length text) (start_of text).

(** The successive matches from left to right, without overlap.  After a
    match of no characters the scan moves one character on. *)
Fixpoint scan (ic : bool) (r : regex) (fuel : nat) (s : mstate)
  : list rmatch :=
  match fuel with
  | O => []
  | S fuel' =>
      match search_from ic r (length (rest s)) s with
      | None => []
      | Some m =>
          let e := m_after m in
          m :: (if (m_start m <? m_end m)%nat
                then scan ic r fuel' (MState (rest e) (prev e) (pos e) [])
                else match rest e with
                     | c :: t => scan ic r fuel' (advance c t (MState (rest e) (prev e) (pos e) []))
                     | [] => []
                     end)
      end
  end.

(** [re.finditer(r, text)] *)
Definition finditer (ic : bool) (r : regex) (text : string) : list rmatch :=
  scan ic r (S (String.length text)) (start_of text).

Definition slice (text : string) (from to : nat) : string :=
  String.substring from (to - from) text.

(** [m.group(0)] *)
Definition group0 (text : string) (m : rmatch) : string :=
  slice text (m_start m) (m_end m).

Fixpoint assoc (n : nat) (l : list (nat * (nat * nat))) : option (nat * nat) :=
  match l with
  | [] => None
  | (k, v) :: t => if (k =? n)%nat then Some v else assoc n t
  end.

(** [m.group(n)] of a group that took part in the match; the empty string
    stands for a group that did not. *)
Definition group (text : string) (n : nat) (m : rmatch) : string :=
  match assoc n (m_groups m) with
  | Some (a, b) => slice text a b
  | None => EmptyString
  end.

(** [re.findall(r, text)] for a pattern without groups. *)
Definition findall0 (ic : bool) (r : regex) (text : string) : list string :=
  map (group0 text) (finditer ic r text).

(** [re.findall(r, text)] for a pattern with one group. *)
Definition findall1 (ic : bool) (r : regex) (text : string) : list string :=
  map (group text 1) (finditer ic r text).

End Re.

(* ===================================================================== *)
(** ** [difflib.SequenceMatcher(None, a, b).ratio()] *)
(* ===================================================================== *)

Module Difflib.

Local Open Scope nat_scope.

Section Matcher.

Variables a b : list ascii.

(** The positions of [c] in [b], ascending. *)
Fixpoint positions (c : ascii) (l : list ascii) (j : nat) : list nat :=
  match l with
  | [] => []
  | x :: t => (if bool_decide (x = c) then [j] else []) ++ positions c t (S j)
  end.

(** [__chain_b]: with [autojunk], in a [b] of 200 elements or more the
    elements that occur more than [len(b) // 100 + 1] times are dropped
    from the index [b2j]. *)
Definition popular (c : ascii) : bool :=
  (200 <=? length b) && (length b / 100 + 1 <? length (positions c b 0)).

Definition b2j (c : ascii) : list nat :=
  if popular c then [] else positions c b 0.

(** No [isjunk] function is given, so the junk set is empty. *)
Definition isbjunk (c : ascii) : bool := false.

Fixpoint get (d : list (nat * nat)) (j : nat) : nat :=
  match d with
  | [] => 0
  | (k, v) :: t => if k =? j then v else get t j
  end.

(** [j2len.get(j - 1, 0)]; there is no key below 0. *)
Definition get_before (d : list (nat * nat)) (j : nat) : nat :=
  match j with
  | O => 0
  | S j' => get d j'
  end.

Definition best := (nat * nat * nat)%type.

(** The inner loop of [find_longest_match] over the positions [js] of
    [a[i]] in [b]: returns the new [newj2len] and the best block. *)
Fixpoint inner (blo bhi i : nat) (j2len : list (nat * nat)) (js : list nat)
         (newj2len : list (nat * nat)) (bst : best)
  : list (nat * nat) * best :=
  match js with
  | [] => (newj2len, bst)
  | j :: js' =>
      if j <? blo then inner blo bhi i j2len js' newj2len bst
      else if bhi <=? j then (newj2len, bst)
      else
        let k := get_before j2len j + 1 in
        let '(_, _, bestsize) := bst in
        inner blo bhi i j2len js' ((j, k) :: newj2len)
              (if bestsize <? k then (i + 1 - k, j + 1 - k, k) else bst)
  end.

(** The outer loop, for [i] in [range(alo, ahi)]; [n] is [ahi - i]. *)
Fixpoint outer (blo bhi : nat) (n i : nat) (j2len : list (nat * nat))
         (bst : best) : best :=
  match n with
  | O => bst
  | S n' =>
      match nth_error a i with
      | Some c =>
          let '(newj2len, bst') := inner blo bhi i j2len (b2j c) [] bst in
          outer blo bhi n' (S i) newj2len bst'
      | None => bst
      end
  end.

Definition same_at (i j : nat) : bool :=
  match nth_error a i, nth_error b j with
  | Some x, Some y => bool_decide (x = y)
  | _, _ => false
  end.

Definition junk_at (j : nat) : bool :=
  match nth_error b j with
  | Some y => isbjunk y
  | None => false
  end.

(** The loops that grow the block on the left and on the right over
    elements that are junk ([junk = true]) or not ([junk = false]). *)
Fixpoint grow_left (junk : bool) (alo blo : nat) (fuel : nat) (bst : best) : best :=
  let '(besti, bestj, bestsize) := bst in
  match fuel with
  | O => bst
  | S fuel' =>
      if (alo <? besti) && (blo <? bestj)
         && eqb (junk_at (bestj - 1)) junk && same_at (besti - 1) (bestj - 1)
      then grow_left junk alo blo fuel' (besti - 1, bestj - 1, bestsize + 1)
      else bst
  end.

Fixpoint grow_right (junk : bool) (ahi bhi : nat) (fuel : nat) (bst : best) : best :=
  let '(besti, bestj, bestsize) := bst in
  match fuel with
  | O => bst
  | S fuel' =>
      if (besti + bestsize <? ahi) && (bestj + bestsize <? bhi)
         && eqb (junk_at (bestj + bestsize)) junk
         && same_at (besti + bestsize) (bestj + bestsize)
      then grow_right junk ahi bhi fuel' (besti, bestj, bestsize + 1)
      else bst
  end.

Definition find_longest_match (alo ahi blo bhi : nat) : best :=
  let b0 := outer blo bhi (ahi - alo) alo [] (alo, blo, 0) in
  let b1 := grow_left false alo blo (length a) b0 in
  let b2 := grow_right false ahi bhi (length a) b1 in
  let b3 := grow_left true alo blo (length a) b2 in
  grow_right true ahi bhi (length a) b3.

(** [get_matching_blocks], up to the final sort and merge of adjacent
    blocks, which keep the sum of the sizes: the work list [queue] is a
    stack. *)
Fixpoint blocks (fuel : nat) (queue : list (nat * nat * nat * nat))
         (found : list best) : list best :=
  match fuel, queue with
  | S fuel', (alo, ahi, blo, bhi) :: q =>
      let '(i, j, k) := find_longest_match alo ahi blo bhi in
      if 0 <? k then
        let q1 := if (alo <? i) && (blo <? j) then (alo, i, blo, j) :: q else q in
        let q2 := if (i + k <? ahi) && (j + k <? bhi)
                  then (i + k, ahi, j + k, bhi) :: q1 else q1 in
        blocks fuel' q2 ((i, j, k) :: found)
      else blocks fuel' q found
  | _, _ => found
  end.

Definition get_matching_blocks : list best :=
  blocks (2 * length a + 1) [(0, length a, 0, length b)] [].

Definition matches : nat :=
  fold_right (fun x acc => snd x + acc) 0 get_matching_blocks.

End Matcher.

(** [ratio()]: [2.0 * matches / length] if [length] else [1.0]. *)
Definition ratio (a b : string) : Qc :=
  let la := list_ascii_of_string a in
  let lb := list_ascii_of_string b in
  let n := length la + length lb in
  if n =? 0 then 1%Qc
  else Q2Qc (inject_Z (2 * Z.of_nat (matches la lb)) / inject_Z (Z.of_nat n)).

End Difflib.

(* ===================================================================== *)
(** ** Pieces of pattern shared by the two parsers *)
(* ===================================================================== *)

Module Pat.
Import Re.

Definition nl : ascii := ascii_of_N 10.
Definition bullet : N := 8226.      (* U+2022 *)
Definition en_dash : N := 8211.     (* U+2013 *)
Definition em_dash : N := 8212.     (* U+2014 *)

Definition s_ : regex := CSet false [Space].
Definition d_ : regex := CSet false [Digit].
Definition w_ : regex := CSet false [Word].
Definition dot : regex := Lit ".".

(** [s?] after a word, as in [skills?] *)
Definition word_s (w : string) : regex := Seq (Str w) (Opt (Lit "s")).

(** [[^•\n]+(?:\n(?!•)[^•\n]+)*]: the lines that follow a header, up to a
    bullet or an empty line. *)
Definition block : regex :=
  let line := Plus (CSet true [One bullet; One 10]) in
  Seq line (Star (Cat [Lit nl; NotAhead (CSet false [One bullet]); line])).

(** [[\s:]*] *)
Definition sep : regex := Star (CSet false [Space; One 58]).

(** [\b[A-Z][a-zA-Z]*(?:\s+[A-Z][a-zA-Z]* )*\b] *)
Definition capitalized : regex :=
  let term := Seq (CSet false [Range 65 90])
                  (Star (CSet false [Range 97 122; Range 65 90])) in
  Cat [WordB; term; Star (Seq (Plus s_) term); WordB].

End Pat.

(* ===================================================================== *)
(** ** [resume_parser.py] *)
(* ===================================================================== *)

(** One entry of the experience list: a dictionary with the keys
    ['dates'] and ['description']; the scorer reads ['dates'] with a default,
    so the key may be absent. *)
Record exp_entry := ExpEntry {
  dates : option string;
  description : string
}.

Module ResumeParser.
Import Re Pat.
Local Open Scope string_scope.

Definition _get_common_skills : list string :=
  [ "Python"; "Java"; "JavaScript"; "C++"; "C#"; "Ruby"; "Go"; "Swift"; "Kotlin";
    "TypeScript"; "PHP"; "R"; "MATLAB"; "Scala"; "Perl"; "Rust";
    "HTML"; "CSS"; "React"; "Angular"; "Vue.js"; "Node.js"; "Express"; "Django";
    "Flask"; "Spring"; "ASP.NET"; "jQuery"; "Bootstrap"; "SASS"; "LESS";
    "SQL"; "MySQL"; "PostgreSQL"; "MongoDB"; "Oracle"; "SQLite"; "Redis";
    "Cassandra"; "Elasticsearch"; "DynamoDB";
    "AWS"; "Azure"; "GCP"; "Docker"; "Kubernetes"; "Jenkins"; "CI/CD";
    "Git"; "GitHub"; "GitLab"; "Terraform"; "Ansible"; "Chef"; "Puppet";
    "Machine Learning"; "Deep Learning"; "TensorFlow"; "PyTorch"; "Keras";
    "Pandas"; "NumPy"; "Scikit-learn"; "Data Analysis"; "Statistics";
    "Natural Language Processing"; "Computer Vision";
    "Linux"; "Unix"; "Windows"; "Agile"; "Scrum"; "JIRA"; "Confluence";
    "Project Management"; "Leadership"; "Communication"; "Teamwork";
    "Problem Solving"; "Analytical Thinking" ].

(** [(?:skills?|technical skills?|competencies?)[\s:]*(block)] *)
Definition skills_pattern : regex :=
  Cat [ Or [word_s "skill"; word_s "technical skill"; word_s "competencie"];
        sep; Group 1 block ].

Definition keep_item (item : string) (found : gset string) : gset string :=
  let skill := Py.strip item in
  if (2 <? String.length skill)%nat && (String.length skill <? 50)%nat
  then {[skill]} ∪ found else found.

Definition extract_skills (text : string) : gset string :=
  let common_skills := _get_common_skills in
  let text_lower := Py.lower text in
  let found_skills :=
    foldl (fun found skill =>
             if Py.contains (Py.lower skill) text_lower
             then {[skill]} ∪ found else found) ∅ common_skills in
  match search true skills_pattern text with
  | Some skills_match =>
      let skills_text := group text 1 skills_match in
      foldl (fun found delimiter =>
               if Py.has_code delimiter skills_text
               then foldl (fun found item => keep_item item found)
                          found (Py.split_at delimiter skills_text)
               else found)
            found_skills [44; 59; 124; 10; 47]%N    (* , ; | \n / *)
  | None => found_skills
  end.

(** [(\d{4}|\w{3}\s+\d{4})\s*[-–—]\s*(\d{4}|\w{3}\s+\d{4}|Present|Current)] *)
Definition date_pattern : regex :=
  let year := Times 4 d_ in
  let mon_year := Cat [Times 3 w_; Plus s_; year] in
  Cat [ Group 1 (Alt year mon_year);
        Star s_; CSet false [One 45; One en_dash; One em_dash]; Star s_;
        Group 2 (Or [year; mon_year; Str "Present"; Str "Current"]) ].

(** [(experience|employment|work history|professional experience)] *)
Definition experience_header : regex :=
  Group 1 (Or [Str "experience"; Str "employment"; Str "work history";
               Str "professional experience"]).

(** The state of the loop of [extract_experience] over the lines. *)
Record exp_state := ExpState {
  in_experience_section : bool;
  current_entry : option exp_entry;
  experience : list exp_entry
}.

Definition close_entry (st : exp_state) : list exp_entry :=
  match current_entry st with
  | Some e => experience st ++ [e]
  | None => experience st
  end.

Definition exp_step (st : exp_state) (line : string) : exp_state :=
  let line_stripped := Py.strip line in
  match search true experience_header line_stripped with
  | Some _ => ExpState true (current_entry st) (experience st)
  | None =>
      if in_experience_section st && negb (String.eqb line_stripped "") then
        match search true date_pattern line_stripped with
        | Some date_match =>
            ExpState true
                     (Some (ExpEntry (Some (group0 line_stripped date_match))
                                     line_stripped))
                     (close_entry st)
        | None =>
            match current_entry st with
            | Some e =>
                ExpState true
                         (Some (ExpEntry (dates e)
                                         (description e +:+ " " +:+ line_stripped)))
                         (experience st)
            | None => st
            end
        end
      else st
  end.

Definition extract_experience (text : string) : list exp_entry :=
  close_entry (foldl exp_step (ExpState false None []) (Py.split_at 10 text)).

(** [\b(?:Bachelor|Master|PhD|Doctorate|B\.S\.|B\.A\.|M\.S\.|M\.A\.|Ph\.D\.)\s+(?:of|in)?\s*\w+] *)
Definition degree_pattern : regex :=
  Cat [ WordB;
        Or [ Str "Bachelor"; Str "Master"; Str "PhD"; Str "Doctorate";
             Str "B.S."; Str "B.A."; Str "M.S."; Str "M.A."; Str "Ph.D." ];
        Plus s_; Opt (Alt (Str "of") (Str "in")); Star s_; Plus w_ ].

(** [(?:education|academic background)[\s:]*(block)] *)
Definition education_section_pattern : regex :=
  Cat [ Alt (Str "education") (Str "academic background"); sep; Group 1 block ].

Definition extract_education (text : string) : list string :=
  let education := findall0 true degree_pattern text in
  match search true education_section_pattern text with
  | Some education_match => education ++ [Py.strip (group text 1 education_match)]
  | None => education
  end.

(** [\b[A-Z][a-z]+\b] *)
Definition capital_word : regex :=
  Cat [WordB; CSet false [Range 65 90]; Plus (CSet false [Range 97 122]); WordB].

(** [nlp] is the language pipeline loaded at construction, when there is
    one; what it returns for a text is not part of this repository. *)
Definition extract_keywords (nlp : option (string -> gset string)) (text : string)
  : gset string :=
  match nlp with
  | None => list_to_set (take 50 (findall0 false capital_word text))
  | Some pipeline => pipeline text
  end.

End ResumeParser.

(* ===================================================================== *)
(** ** [job_parser.py] *)
(* ===================================================================== *)

Module JobDescriptionParser.
Import Re Pat.
Local Open Scope string_scope.

Definition common_skills : list string :=
  [ "python"; "java"; "javascript"; "c++"; "c#"; "ruby"; "go"; "swift"; "kotlin";
    "typescript"; "php"; "r"; "matlab"; "scala"; "perl"; "rust";
    "html"; "css"; "react"; "angular"; "vue.js"; "node.js"; "express"; "django";
    "flask"; "spring"; "asp.net"; "jquery"; "bootstrap"; "sass"; "less";
    "sql"; "mysql"; "postgresql"; "mongodb"; "oracle"; "sqlite"; "redis";
    "aws"; "azure"; "gcp"; "docker"; "kubernetes"; "jenkins"; "ci/cd";
    "git"; "github"; "gitlab"; "terraform"; "ansible"; "chef"; "puppet";
    "machine learning"; "deep learning"; "tensorflow"; "pytorch"; "keras";
    "pandas"; "numpy"; "scikit-learn"; "data analysis"; "statistics";
    "linux"; "unix"; "windows"; "agile"; "scrum"; "jira"; "confluence" ].

(** [(?:required skills?|technical skills?|skills required|qualifications?)[\s:]*(block)]
    and [(?:must have|required)[\s:]*(block)] *)
Definition skills_patterns : list regex :=
  [ Cat [ Or [ word_s "required skill"; word_s "technical skill";
               Str "skills required"; word_s "qualification" ];
          sep; Group 1 block ];
    Cat [ Alt (Str "must have") (Str "required"); sep; Group 1 block ] ].

(** [, ; | \n / • -] *)
Definition delimiters : list N := [44; 59; 124; 10; 47; bullet; 45]%N.

Definition add_item (skills : gset string) (item : string) : gset string :=
  let item := Py.strip item in
  if (2 <? String.length item)%nat && (String.length item <? 50)%nat
  then {[item]} ∪ skills else skills.

(** The body of the loop over the matches of one section pattern. *)
Definition add_section (skills : gset string) (skills_text : string) : gset string :=
  let capitalized_terms := findall0 false capitalized skills_text in
  let skills :=
    list_to_set (filter (fun term => (2 < String.length term)%nat) capitalized_terms)
    ∪ skills in
  foldl (fun skills delimiter =>
           foldl add_item skills (Py.split_at delimiter skills_text))
        skills delimiters.

Definition _extract_skills (text : string) : gset string :=
  let text_lower := Py.lower text in
  let skills :=
    foldl (fun skills skill =>
             if Py.contains skill text_lower
             then {[Py.title skill]} ∪ skills else skills) ∅ common_skills in
  foldl (fun skills pattern =>
           foldl (fun skills m => add_section skills (group text 1 m))
                 skills (finditer true pattern text))
        skills skills_patterns.

(** [(\d+)\+?\s*years?\s*(?:of\s* )?(?:experience|exp)],
    [minimum\s*(?:of\s* )?(\d+)\s*years?] and [at least\s*(\d+)\s*years?] *)
Definition experience_patterns : list regex :=
  [ Cat [ Group 1 (Plus d_); Opt (Lit "+"); Star s_; word_s "year"; Star s_;
          Opt (Seq (Str "of") (Star s_)); Alt (Str "experience") (Str "exp") ];
    Cat [ Str "minimum"; Star s_; Opt (Seq (Str "of") (Star s_));
          Group 1 (Plus d_); Star s_; word_s "year" ];
    Cat [ Str "at least"; Star s_; Group 1 (Plus d_); Star s_; word_s "year" ] ].

(** The loop over the patterns, left at the first one that matches, with
    the value of [int(match.group(1))] or with its exception. *)
Fixpoint first_years (patterns : list regex) (text : string) : outcome Z :=
  match patterns with
  | [] => Returned 0
  | pattern :: others =>
      match search true pattern text with
      | Some m => Py.int_of (group text 1 m)
      | None => first_years others text
      end
  end.

Definition _extract_experience_years (text : string) : outcome Z :=
  first_years experience_patterns text.

(** [\b(Bachelor|Master|PhD|Doctorate|B\.S\.|B\.A\.|M\.S\.|M\.A\.|Ph\.D\.|BS|BA|MS|MA)\s+(?:degree|of|in)?\s*\w*] *)
Definition degree_pattern : regex :=
  Cat [ WordB;
        Group 1 (Or [ Str "Bachelor"; Str "Master"; Str "PhD"; Str "Doctorate";
                      Str "B.S."; Str "B.A."; Str "M.S."; Str "M.A."; Str "Ph.D.";
                      Str "BS"; Str "BA"; Str "MS"; Str "MA" ]);
        Plus s_; Opt (Or [Str "degree"; Str "of"; Str "in"]); Star s_; Star w_ ].

Definition _extract_education_requirements (text : string) : list string :=
  map (group0 text) (finditer true degree_pattern text).

Definition common_words : gset string :=
  {[ "The"; "A"; "An"; "This"; "That"; "We"; "You"; "Your"; "Our" ]}.

Definition _extract_keywords (text : string) : gset string :=
  list_to_set (findall0 false capitalized text) ∖ common_words.

End JobDescriptionParser.

(* ===================================================================== *)
(** ** What the scorer takes from its environment *)
(* ===================================================================== *)

(** The order in which the interpreter yields the elements of a set: each
    element once, in an order the program does not control. *)
Class SetOrder := {
  set_iter : gset string -> list string;
  set_iter_perm : forall s, set_iter s ≡ₚ elements s
}.

(** The TF-IDF vectorizer and the cosine similarity of scikit-learn, taken
    together: [cosine job_text resume_text] is the similarity of the two
    rows of the matrix fitted on [[job_text, resume_text]], or an exception. *)
Class Vectorizer := {
  cosine : string -> string -> outcome Qc
}.

(* ===================================================================== *)
(** ** [ml_model.py] *)
(* ===================================================================== *)

Definition qc (n : Z) : Qc := Q2Qc (inject_Z n).

Module MlModel.
Section Model.
Context {V : Vectorizer}.

(** [resume_text] and [job_text] may be [None] or absent: [x or ""]. *)
Definition compute_semantic_similarity (resume_text job_text : option string) : Qc :=
  let resume_text := Py.strip (default EmptyString resume_text) in
  let job_text := Py.strip (default EmptyString job_text) in
  if String.eqb resume_text EmptyString || String.eqb job_text EmptyString
  then 0%Qc
  else match cosine job_text resume_text with
       | Returned similarity => Py.round (similarity * qc 100) 2
       | Raised => 0%Qc
       end.
End Model.
End MlModel.

(* ===================================================================== *)
(** ** [ats_scorer.py] *)
(* ===================================================================== *)

(** [resume_data] and [job_data] are dictionaries read with [.get(key,
    default)]: a field is [None] when the key is absent. *)
Record resume_data := ResumeData {
  r_text : option string;
  r_skills : option (gset string);
  r_experience : option (list exp_entry);
  r_education : option (list string);
  r_keywords : option (gset string)
}.

Record job_data := JobData {
  j_skills : option (gset string);
  j_experience_years : option Z;
  j_education : option (list string);
  j_keywords : option (gset string);
  j_full_text : option string
}.

(** The dictionary returned by [calculate_score]. *)
Record score_result := ScoreResult {
  overall_score : Qc;
  skills_score : Qc;
  keywords_score : Qc;
  experience_score : Qc;
  education_score : Qc;
  semantic_score : Qc;
  missing_skills : list string;
  matched_skills : list string;
  strengths : list string;
  suggestions : list string
}.

(** [resume_data.get('skills', set())] and [job_data.get('skills', set())] *)
Definition resume_skills_of (r : resume_data) : gset string := default ∅ (r_skills r).
Definition job_skills_of (j : job_data) : gset string := default ∅ (j_skills j).

Module ATSScorer.
Local Open Scope string_scope.

(** [s.lower().strip()] *)
Definition norm (s : string) : string := Py.strip (Py.lower s).

Definition threshold : Qc := Q2Qc (8 # 10).

Definition percent (n d : nat) : Qc :=
  (qc (Z.of_nat n) / qc (Z.of_nat d) * qc 100)%Qc.

Definition min_qc (x y : Qc) : Qc := if bool_decide (x <= y)%Qc then x else y.

Definition is_empty_set (s : gset string) : bool := bool_decide (s = ∅).

Section Scorer.
Context {order : SetOrder} {V : Vectorizer}.

(** [{s.lower().strip() for s in skills}] *)
Definition lowered (skills : gset string) : gset string :=
  list_to_set (map norm (set_iter skills)).

Definition exact_matches (resume_skills job_skills : gset string) : gset string :=
  lowered resume_skills ∩ lowered job_skills.

(** The two nested loops; the inner one stops at the first resume skill
    that is similar enough. *)
Definition fuzzy_matches (resume_skills job_skills : gset string) : gset string :=
  let resume_skills_lower := lowered resume_skills in
  let remaining_job_skills :=
    lowered job_skills ∖ exact_matches resume_skills job_skills in
  foldl (fun fuzzy job_skill =>
           if existsb (fun resume_skill =>
                         bool_decide (threshold < Difflib.ratio job_skill resume_skill)%Qc)
                      (set_iter resume_skills_lower)
           then {[job_skill]} ∪ fuzzy else fuzzy)
        ∅ (set_iter remaining_job_skills).

(** The score before [min(score, 100.0)]. *)
Definition raw_skills_score (resume_skills job_skills : gset string) : Qc :=
  let job_skills_lower := lowered job_skills in
  let total_matches :=
    (size (exact_matches resume_skills job_skills)
     + size (fuzzy_matches resume_skills job_skills))%nat in
  if is_empty_set job_skills_lower then qc 100
  else percent total_matches (size job_skills_lower).

Definition _score_skills (resume_skills job_skills : gset string)
  : Qc * gset string * gset string :=
  if is_empty_set job_skills then (qc 100, ∅, ∅)
  else
    let found := exact_matches resume_skills job_skills
                 ∪ fuzzy_matches resume_skills job_skills in
    let matched_skills :=
      foldl (fun matched job_skill_orig =>
               if bool_decide (norm job_skill_orig ∈ found)
               then {[job_skill_orig]} ∪ matched else matched)
            ∅ (set_iter job_skills) in
    let score := min_qc (raw_skills_score resume_skills job_skills) (qc 100) in
    let missing_skills := job_skills ∖ matched_skills in
    (score, matched_skills, missing_skills).

Definition _score_keywords (resume_keywords job_keywords : gset string)
  : Qc * gset string :=
  if is_empty_set job_keywords then (qc 100, ∅)
  else
    let resume_keywords_lower := lowered resume_keywords in
    let job_keywords_lower := lowered job_keywords in
    let found := resume_keywords_lower ∩ job_keywords_lower in
    let matched_keywords :=
      foldl (fun matched job_kw_orig =>
               if bool_decide (norm job_kw_orig ∈ found)
               then {[job_kw_orig]} ∪ matched else matched)
            ∅ (set_iter job_keywords) in
    let score :=
      if is_empty_set job_keywords_lower then qc 100
      else percent (size found) (size job_keywords_lower) in
    (min_qc score (qc 100), matched_keywords).

(** [(\d{4})] *)
Definition year_pattern : Re.regex := Re.Group 1 (Re.Times 4 Pat.d_).

(** The years added by one entry.  [int] cannot fail on four digits, so
    the handler of [ValueError] is never entered. *)
Definition entry_years (exp : exp_entry) : Z :=
  let years := Re.findall1 false year_pattern (default "" (dates exp)) in
  match years with
  | y0 :: y1 :: _ =>
      let start_year := Py.int_of_digits y0 in
      let end_year := if String.eqb y1 "" then 2024 else Py.int_of_digits y1 in
      end_year - start_year
  | _ => 0
  end.

Definition extracted_years (resume_experience : list exp_entry) : Z :=
  foldl (fun total_years exp => total_years + entry_years exp) 0 resume_experience.

(** [total_years] after the estimate of two years per role. *)
Definition total_years (resume_experience : list exp_entry) : Z :=
  let total := extracted_years resume_experience in
  if (total =? 0)%Z && negb (bool_decide (resume_experience = []))
  then Z.of_nat (length resume_experience) * 2
  else total.

(** The quotient [total_years / required_years] is the exact one; the
    interpreter rounds it to a float, which is 0 for a total that is not 0
    only when the required number exceeds the range of a float (a number
    written with more than 300 digits). *)
Definition _score_experience (resume_experience : list exp_entry)
           (required_years : Z) : Qc :=
  if (required_years =? 0)%Z then qc 100
  else
    let total_years := total_years resume_experience in
    if (required_years <=? total_years)%Z then qc 100
    else (qc total_years / qc required_years * qc 100)%Qc.

Definition edu_matches (resume_edu_text : string) (job_education : list string) : nat :=
  foldl (fun matches job_edu =>
           let job_edu_lower := Py.lower job_edu in
           if existsb (fun term => Py.contains term resume_edu_text)
                      (take 2 (Py.split_ws job_edu_lower))
           then S matches else matches)
        0%nat job_education.

Definition _score_education (resume_education job_education : list string) : Qc :=
  match job_education with
  | [] => qc 100
  | _ =>
      let resume_edu_text := Py.lower (Py.join " " resume_education) in
      let matches := edu_matches resume_edu_text job_education in
      min_qc (percent matches (length job_education)) (qc 100)
  end.

Definition _score_semantic (resume_text job_text : option string) : Qc :=
  MlModel.compute_semantic_similarity resume_text job_text.

Definition str_of_len (n : nat) : string := Py.str_of_int (Z.of_nat n).

Definition _generate_strengths (resume : resume_data) (job : job_data)
           (matched_skills matched_keywords : gset string) (semantic_score : Qc)
  : list string :=
  let strengths := [] in
  let strengths :=
    if (0 <? size matched_skills)%nat then
      if (5 <=? size matched_skills)%nat then
        Py.append strengths
          ("Strong technical skills match (" +:+ str_of_len (size matched_skills)
                      +:+ " skills aligned with job requirements)")
      else
        Py.append strengths
          ("Some relevant technical skills (" +:+ str_of_len (size matched_skills)
                      +:+ " matched)")
    else strengths in
  let strengths :=
    if (0 <? size matched_keywords)%nat then
      Py.append strengths
          ("Good keyword alignment (" +:+ str_of_len (size matched_keywords)
                    +:+ " keywords match)")
    else strengths in
  let strengths :=
    if bool_decide (qc 70 <= semantic_score)%Qc then
      Py.append strengths
          ("Strong overall alignment to the job description (semantic similarity)")
    else strengths in
  let strengths :=
    match default [] (r_experience resume) with
    | [] => strengths
    | experience =>
        Py.append strengths
          ("Demonstrated work experience (" +:+ str_of_len (length experience)
                      +:+ " positions)")
    end in
  let strengths :=
    match default [] (r_education resume) with
    | [] => strengths
    | _ => Py.append strengths
          ("Relevant educational background")
    end in
  match strengths with
  | [] => ["Resume shows potential, but needs more alignment with job requirements"]
  | _ => strengths
  end.

Definition missing_sentence (top_missing : list string) : string :=
  "Add missing key skills: " +:+ Py.join ", " top_missing +:+ ". "
  +:+ "If you have experience with these, make sure they're mentioned in your resume.".

Definition low_sentence : string :=
  "Overall score is below average. Consider revising your resume to better align "
  +:+ "with the job description. Use keywords from the job posting.".

Definition mid_sentence : string :=
  "Score is good but can be improved. Focus on adding missing skills and "
  +:+ "emphasizing relevant experience more prominently.".

Definition semantic_sentence : string :=
  "Improve semantic alignment: mirror phrasing from the job description, add role-specific "
  +:+ "keywords in context, and ensure your summary and bullet points reflect the responsibilities.".

Definition visibility_sentence (required_years : Z) : string :=
  "The job requires " +:+ Py.str_of_int required_years +:+ " years of experience. "
  +:+ "Make sure your experience section is clearly formatted and visible.".

Definition keywords_sentence : string :=
  "Add more relevant keywords and industry-specific terms from the job description "
  +:+ "to improve ATS parsing.".

Definition formatting_sentence : string :=
  "Ensure your resume uses standard formatting with clear sections: "
  +:+ "Skills, Experience, Education. Avoid graphics and complex layouts that ATS systems can't parse.".

Definition _generate_suggestions (missing_skills : gset string) (job : job_data)
           (resume : resume_data) (overall_score semantic_score : Qc)
  : list string :=
  let suggestions := [] in
  let suggestions :=
    if negb (is_empty_set missing_skills) then
      let top_missing := take 5 (set_iter missing_skills) in
      match top_missing with
      | [] => suggestions
      | _ => Py.append suggestions (missing_sentence top_missing)
      end
    else suggestions in
  let suggestions :=
    if bool_decide (overall_score < qc 60)%Qc then
      Py.append suggestions low_sentence
    else if bool_decide (overall_score < qc 80)%Qc then
      Py.append suggestions mid_sentence
    else suggestions in
  let suggestions :=
    if bool_decide (semantic_score < qc 60)%Qc then
      Py.append suggestions semantic_sentence
    else suggestions in
  let required_years := default 0%Z (j_experience_years job) in
  let suggestions :=
    if (0 <? required_years)%Z then
      let resume_exp := default [] (r_experience resume) in
      if (length resume_exp =? 0)%nat then
        Py.append suggestions (visibility_sentence required_years)
      else suggestions
    else suggestions in
  let suggestions :=
    if (size (default ∅ (r_keywords resume)) <? 20)%nat then
      Py.append suggestions keywords_sentence
    else suggestions in
  Py.append suggestions formatting_sentence.

(** The weighted sum of the five component scores. *)
Definition weighted (skills keywords experience education semantic : Qc) : Qc :=
  (skills * Q2Qc (35 # 100) + keywords * Q2Qc (20 # 100)
   + experience * Q2Qc (15 # 100) + education * Q2Qc (10 # 100)
   + semantic * Q2Qc (20 # 100))%Qc.

Definition calculate_score (resume : resume_data) (job : job_data) : score_result :=
  let '(skills_score, skills_match, missing_skills) :=
    _score_skills (resume_skills_of resume) (job_skills_of job) in
  let '(keywords_score, matched_keywords) :=
    _score_keywords (default ∅ (r_keywords resume)) (default ∅ (j_keywords job)) in
  let experience_score :=
    _score_experience (default [] (r_experience resume))
                      (default 0%Z (j_experience_years job)) in
  let education_score :=
    _score_education (default [] (r_education resume))
                     (default [] (j_education job)) in
  let semantic_score :=
    _score_semantic (Some (default "" (r_text resume)))
                    (Some (default "" (j_full_text job))) in
  let overall_score :=
    weighted skills_score keywords_score experience_score education_score
             semantic_score in
  let strengths :=
    _generate_strengths resume job skills_match matched_keywords semantic_score in
  let suggestions :=
    _generate_suggestions missing_skills job resume overall_score semantic_score in
  {| overall_score := Py.round overall_score 1;
     skills_score := Py.round skills_score 1;
     keywords_score := Py.round keywords_score 1;
     experience_score := Py.round experience_score 1;
     education_score := Py.round education_score 1;
     semantic_score := Py.round semantic_score 1;
     missing_skills := set_iter missing_skills;
     matched_skills := set_iter skills_match;
     strengths := strengths;
     suggestions := suggestions |}.

End Scorer.
End ATSScorer.

(* ===================================================================== *)
(** ** Environments and inputs used in the examples *)
(* ===================================================================== *)

(** One possible iteration order: the one of [elements]. *)
Definition elements_order : SetOrder :=
  {| set_iter := elements; set_iter_perm := fun s => reflexivity (elements s) |}.

(** Another one: the reverse. *)
Definition reverse_order : SetOrder :=
  {| set_iter := fun s => rev (elements s);
     set_iter_perm := fun s => Permutation_sym (Permutation_rev (elements s)) |}.

(** A vectorizer that always fails, and one that finds every pair of texts
    equally similar. *)
Definition failing_vectorizer : Vectorizer := {| cosine := fun _ _ => Raised |}.

Definition constant_vectorizer (x : Qc) : Vectorizer :=
  {| cosine := fun _ _ => Returned x |}.

(* ===================================================================== *)
(** ** What a match of a pattern is *)
(* ===================================================================== *)

Module ReSpec.
Import Re.

(** [matches ic r s s']: reading [r] from the position [s] can end at the
    position [s'].  Look-ahead and word boundaries read nothing. *)
Inductive matches (ic : bool) : regex -> mstate -> mstate -> Prop :=
| m_eps s : matches ic Eps s s
| m_lit p c t s :
    rest s = c :: t -> lit_ok ic p c = true -> matches ic (Lit p) s (advance c t s)
| m_set negated items c t s :
    rest s = c :: t -> set_ok ic negated items c = true ->
    matches ic (CSet negated items) s (advance c t s)
| m_seq a b s s' s'' :
    matches ic a s s' -> matches ic b s' s'' -> matches ic (Seq a b) s s''
| m_alt_l a b s s' : matches ic a s s' -> matches ic (Alt a b) s s'
| m_alt_r a b s s' : matches ic b s s' -> matches ic (Alt a b) s s'
| m_star_stop a s : matches ic (Star a) s s
| m_star_more a s s' s'' :
    matches ic a s s' -> matches ic (Star a) s' s'' -> matches ic (Star a) s s''
| m_group n a s s' :
    matches ic a s s' -> matches ic (Group n a) s (set_group n (pos s) s')
| m_not_ahead a s : matches ic (NotAhead a) s s
| m_word_b s : matches ic WordB s s.







End ReSpec.

(* ===================================================================== *)
(** ** The rules of the specification, stated on their own *)
(* ===================================================================== *)

(** The table of the suggestion rules: a condition and the sentence it
    emits, in the order in which the sentences are to appear. *)
Definition suggestion_table {order : SetOrder} (missing : gset string)
           (job : job_data) (resume : resume_data) (overall semantic : Qc)
  : list (bool * string) :=
  let required_years := default 0 (j_experience_years job) in
  [ (negb (ATSScorer.is_empty_set missing),
     ATSScorer.missing_sentence (take 5 (set_iter missing)));
    (bool_decide (overall < qc 60)%Qc, ATSScorer.low_sentence);
    (negb (bool_decide (overall < qc 60)%Qc) && bool_decide (overall < qc 80)%Qc,
     ATSScorer.mid_sentence);
    (bool_decide (semantic < qc 60)%Qc, ATSScorer.semantic_sentence);
    ((0 <? required_years) && (length (default [] (r_experience resume)) =? 0)%nat,
     ATSScorer.visibility_sentence required_years);
    ((size (default ∅ (r_keywords resume)) <? 20)%nat, ATSScorer.keywords_sentence);
    (true, ATSScorer.formatting_sentence) ].

(** The sentences of the rules whose condition holds, in the order of the
    table. *)
Definition emitted (table : list (bool * string)) : list string :=
  map snd (List.filter fst table).


(* ===================================================================== *)
(** ** Inputs of the examples *)
(* ===================================================================== *)

Definition scenario_resume_text : string :=
  "Skilled in Python, SQL, 2019 - 2022 Software Engineer".

Definition scenario_job_text : string :=
  "Required skills: Python, Java. Minimum 3 years experience. Bachelor's degree required.".

(** The resume dictionary of the scenario; the keywords depend on the
    language pipeline and are left open. *)
Definition scenario_resume (keywords : gset string) : resume_data :=
  {| r_text := Some scenario_resume_text;
     r_skills := Some (ResumeParser.extract_skills scenario_resume_text);
     r_experience := Some (ResumeParser.extract_experience scenario_resume_text);
     r_education := Some (ResumeParser.extract_education scenario_resume_text);
     r_keywords := Some keywords |}.

(** The dictionary built by [extract_requirements], without the two lists
    that the scorer does not read; an exception of
    [_extract_experience_years] is not caught. *)
Definition extract_requirements (job_description : string) : outcome job_data :=
  match JobDescriptionParser._extract_experience_years job_description with
  | Returned experience_years =>
      Returned
        {| j_skills := Some (JobDescriptionParser._extract_skills job_description);
           j_experience_years := Some experience_years;
           j_education :=
             Some (JobDescriptionParser._extract_education_requirements job_description);
           j_keywords := Some (JobDescriptionParser._extract_keywords job_description);
           j_full_text := Some job_description |}
  | Raised => Raised
  end.



(** A resume whose only position is dated with the later year first. *)
Definition inverted_resume_text : string :=
  "Experience" +:+ String Pat.nl "2022 - 2019 Engineer".

Definition inverted_resume : resume_data :=
  {| r_text := Some inverted_resume_text;
     r_skills := Some ∅;
     r_experience := Some [ExpEntry (Some "2022 - 2019") "2022 - 2019 Engineer"];
     r_education := Some [];
     r_keywords := Some ∅ |}.

Definition java_job : job_data :=
  {| j_skills := Some {[ "Java" ]};
     j_experience_years := Some 1;
     j_education := Some ["Master of Science"];
     j_keywords := Some {[ "Java" ]};
     j_full_text := Some "Java, 1+ years of experience, Master of Science" |}.

(** A position that starts and ends in the same year. *)
Definition same_year_experience : list exp_entry :=
  [ExpEntry (Some "2020 - 2020") "2020 - 2020 Intern"].

(** A resume that spells its one skill in capitals. *)
Definition java_resume : resume_data :=
  {| r_text := Some "JAVA developer";
     r_skills := Some {[ "JAVA" ]};
     r_experience := Some [];
     r_education := Some [];
     r_keywords := Some ∅ |}.

Definition empty_resume : resume_data :=
  {| r_text := None; r_skills := None; r_experience := None;
     r_education := None; r_keywords := None |}.

Definition empty_job : job_data :=
  {| j_skills := None; j_experience_years := None; j_education := None;
     j_keywords := None; j_full_text := None |}.

(** A job that asks for two skills and nothing else, and a resume that has
    one of the two. *)
Definition two_skill_job : job_data :=
  {| j_skills := Some {[ "Java"; "Rust" ]}; j_experience_years := None;
     j_education := None; j_keywords := None; j_full_text := None |}.

Definition rust_resume : resume_data :=
  {| r_text := None; r_skills := Some {[ "rust" ]}; r_experience := None;
     r_education := None; r_keywords := None |}.

(** The results of the examples. *)
Definition scenario_result : outcome score_result :=
  match extract_requirements scenario_job_text with
  | Returned job =>
      Returned (@ATSScorer.calculate_score elements_order failing_vectorizer
                  (scenario_resume ∅) job)
  | Raised => Raised
  end.

Definition java_result : score_result :=
  @ATSScorer.calculate_score elements_order failing_vectorizer java_resume java_job.

Definition empty_result : score_result :=
  @ATSScorer.calculate_score elements_order failing_vectorizer empty_resume empty_job.

(* ===================================================================== *)
(** ** The section lists of [job_parser.py] *)
(* ===================================================================== *)

Module JobSectionLists.
Import Re Pat.
Local Open Scope string_scope.

(** [(?:responsibilities|key responsibilities|duties?|what you\'ll do)[\s:]*(block)] *)
Definition responsibility_patterns : list regex :=
  [ Cat [ Or [ Str "responsibilities"; Str "key responsibilities";
               Seq (Str "dutie") (Opt (Lit "s")); Str "what you'll do" ];
          sep; Group 1 block ] ].

(** [(?:qualifications?|requirements?|must have)[\s:]*(block)] *)
Definition qualification_patterns : list regex :=
  [ Cat [ Or [ word_s "qualification"; word_s "requirement"; Str "must have" ];
          sep; Group 1 block ] ].

(** The loop over the lines of a captured section: a line is kept, stripped,
    when it is not empty and has more than 10 characters. *)
Definition add_lines (found : list string) (section_text : string) : list string :=
  foldl (fun found line =>
           let line := Py.strip line in
           if negb (String.eqb line "") && (10 <? String.length line)%nat
           then Py.append found line else found)
        found (Py.split_at 10 section_text).

(** The loop over the patterns, shared by the two functions, and the final
    [[:10]]. *)
Definition section_lines (patterns : list regex) (text : string) : list string :=
  take 10
    (foldl (fun found pattern =>
              match search true pattern text with
              | Some m => add_lines found (group text 1 m)
              | None => found
              end)
           [] patterns).

Definition _extract_responsibilities (text : string) : list string :=
  section_lines responsibility_patterns text.

Definition _extract_qualifications (text : string) : list string :=
  section_lines qualification_patterns text.

End JobSectionLists.

(* ===================================================================== *)
(** ** Files: [extract_text] and [parse] of [resume_parser.py],
       [allowed_file] of [app.py] *)
(* ===================================================================== *)

(** The two document libraries: the text of the file at a path, or an
    exception. *)
Class DocumentReader := {
  _extract_from_pdf : string -> outcome string;
  _extract_from_docx : string -> outcome string
}.

(** What [extract_text] does: it returns a text, raises [ValueError] for a
    format it does not know, or lets the exception of a reader through. *)
Inductive extraction :=
| Extracted (text : string)
| UnsupportedFormat
| ReaderError.

Module Files.
Local Open Scope string_scope.

(** [s.endswith(suffix)] *)
Fixpoint endswith (suffix s : string) : bool :=
  String.eqb suffix s ||
  match s with
  | EmptyString => false
  | String _ t => endswith suffix t
  end.

Definition of_reader (o : outcome string) : extraction :=
  match o with
  | Returned text => Extracted text
  | Raised => ReaderError
  end.

Definition extract_text {R : DocumentReader} (file_path : string) : extraction :=
  if endswith ".pdf" (Py.lower file_path) then
    of_reader (_extract_from_pdf file_path)
  else if endswith ".docx" (Py.lower file_path) || endswith ".doc" (Py.lower file_path) then
    of_reader (_extract_from_docx file_path)
  else UnsupportedFormat.

(** [parse]: the dictionary of the resume, or the failure of [extract_text]. *)
Definition parse {R : DocumentReader} (nlp : option (string -> gset string))
           (file_path : string) : extraction + resume_data :=
  match extract_text file_path with
  | Extracted text =>
      inr {| r_text := Some text;
             r_skills := Some (ResumeParser.extract_skills text);
             r_experience := Some (ResumeParser.extract_experience text);
             r_education := Some (ResumeParser.extract_education text);
             r_keywords := Some (ResumeParser.extract_keywords nlp text) |}
  | failure => inl failure
  end.

Definition ALLOWED_EXTENSIONS : gset string := {[ "pdf"; "docx"; "doc" ]}.

(** [filename.rsplit('.', 1)[1]] when there is a dot in [filename]: what
    follows the last dot. *)
Fixpoint after_last_dot (s : string) : option string :=
  match s with
  | EmptyString => None
  | String c t =>
      match after_last_dot t with
      | Some e => Some e
      | None => if (Py.code c =? 46)%N then Some t else None
      end
  end.

Definition allowed_file (filename : string) : bool :=
  match after_last_dot filename with
  | Some extension => bool_decide (Py.lower extension ∈ ALLOWED_EXTENSIONS)
  | None => false
  end.

End Files.

(** An entry that has the key ['dates']. *)
Definition dated (e : exp_entry) : Prop := is_Some (dates e).

(** Inputs of further examples. *)
Definition dated_experience : list exp_entry :=
  [ExpEntry (Some "2018 - 2021") "2018 - 2021 Developer";
   ExpEntry (Some "2021 - 2024") "2021 - 2024 Lead"].

Definition undated_experience : list exp_entry :=
  [ExpEntry (Some "Jan 2020 - Present") "Jan 2020 - Present Developer";
   ExpEntry None "Consultant"].

Definition dated_resume : resume_data :=
  {| r_text := Some "JAVA developer";
     r_skills := Some {[ "JAVA" ]};
     r_experience := Some dated_experience;
     r_education := Some [];
     r_keywords := Some ∅ |}.

Definition quarter_vectorizer : Vectorizer := constant_vectorizer (Q2Qc (1 # 4)).

Definition no_reader : DocumentReader :=
  {| _extract_from_pdf := fun _ => Raised; _extract_from_docx := fun _ => Raised |}.

(* ===================================================================== *)
(** ** Iteration over sets *)
(* ===================================================================== *)

Section SetIteration.
Context {order : SetOrder}.

Lemma elem_of_set_iter (s : gset string) (x : string) :
  x ∈ set_iter s <-> x ∈ s.
Proof. rewrite (set_iter_perm s). apply elem_of_elements. Qed.

Lemma set_iter_NoDup (s : gset string) : NoDup (set_iter s).
Proof. rewrite (set_iter_perm s). apply NoDup_elements. Qed.

Lemma set_iter_empty : set_iter ∅ = [].
Proof.
  apply Permutation_nil_r. rewrite (set_iter_perm ∅). by rewrite elements_empty.
Qed.

Lemma list_to_set_iter (s : gset string) : list_to_set (set_iter s) = s.
Proof. apply set_eq. intros x. by rewrite elem_of_list_to_set, elem_of_set_iter. Qed.

Lemma length_set_iter (s : gset string) : length (set_iter s) = size s.
Proof. by rewrite (set_iter_perm s). Qed.

(** A loop that adds to a set the elements of a list that pass a test. *)
Lemma elem_of_collect (test : string -> bool) (l : list string)
      (init : gset string) (x : string) :
  x ∈ foldl (fun acc y => if test y then {[y]} ∪ acc else acc) init l
  <-> x ∈ init \/ (x ∈ l /\ test x = true).
Proof.
  revert init. induction l as [|y l IH]; intros init; simpl.
  - rewrite elem_of_nil. tauto.
  - rewrite IH, elem_of_cons. destruct (test y) eqn:Hy.
    + rewrite elem_of_union, elem_of_singleton. split.
      * intros [[->|?]|[? ?]]; auto.
      * intros [?|[[->|?] ?]]; auto.
    + split.
      * intros [?|[? ?]]; auto.
      * intros [?|[[->|?] ?]]; auto. congruence.
Qed.

Lemma elem_of_lowered (s : gset string) (y : string) :
  y ∈ ATSScorer.lowered s <-> exists x, x ∈ s /\ y = ATSScorer.norm x.
Proof.
  unfold ATSScorer.lowered. rewrite elem_of_list_to_set, list_elem_of_In, in_map_iff.
  split; intros (x & H1 & H2).
  - exists x. split; [|done]. by apply elem_of_set_iter, list_elem_of_In.
  - exists x. split; [done|]. by apply list_elem_of_In, elem_of_set_iter.
Qed.

Lemma elem_of_fuzzy (rs js : gset string) (x : string) :
  x ∈ ATSScorer.fuzzy_matches rs js <->
  x ∈ ATSScorer.lowered js ∖ ATSScorer.exact_matches rs js /\
  exists r, r ∈ ATSScorer.lowered rs /\
            (ATSScorer.threshold < Difflib.ratio x r)%Qc.
Proof.
  unfold ATSScorer.fuzzy_matches. rewrite elem_of_collect, elem_of_set_iter.
  rewrite elem_of_empty, existsb_exists. split.
  - intros [[]|[H (r & Hr & Hlt)]]. split; [done|]. exists r.
    apply list_elem_of_In, elem_of_set_iter in Hr. split; [done|].
    by apply bool_decide_eq_true in Hlt.
  - intros [H (r & Hr & Hlt)]. right. split; [done|]. exists r. split.
    + by apply list_elem_of_In, elem_of_set_iter.
    + by apply bool_decide_eq_true.
Qed.

End SetIteration.

(* ===================================================================== *)
(** ** Rational arithmetic of the scores *)
(* ===================================================================== *)

Lemma qc_le (n m : Z) : (n <= m)%Z -> (qc n <= qc m)%Qc.
Proof.
  intros H. unfold qc, Qcle. simpl. rewrite !Qred_correct.
  unfold Qle. simpl. lia.
Qed.

Lemma qc_lt (n m : Z) : (n < m)%Z -> (qc n < qc m)%Qc.
Proof.
  intros H. unfold qc, Qclt. simpl. rewrite !Qred_correct.
  unfold Qlt. simpl. lia.
Qed.

Lemma qc_0 : qc 0 = 0%Qc.
Proof. by apply Qc_is_canon. Qed.

Lemma percent_nonneg (n d : nat) : (0 <= ATSScorer.percent n d)%Qc.
Proof.
  unfold ATSScorer.percent, Qcdiv.
  assert (H0 : forall k : nat, (0 <= qc (Z.of_nat k))%Qc).
  { intros k. rewrite <- qc_0. apply qc_le. lia. }
  assert (Hd : (0 <= / qc (Z.of_nat d))%Qc).
  { destruct d as [|d].
    - replace (qc (Z.of_nat 0)) with 0%Qc by (symmetry; apply qc_0). done.
    - apply Qclt_le_weak, Qcinv_pos. rewrite <- qc_0. apply qc_lt. lia. }
  apply Qcmult_nonneg_nonneg; [apply Qcmult_nonneg_nonneg|]; auto.
Qed.

Lemma percent_le_100 (n d : nat) :
  (n <= d)%nat -> (0 < d)%nat -> (ATSScorer.percent n d <= qc 100)%Qc.
Proof.
  intros Hnd Hd. unfold ATSScorer.percent, Qcdiv.
  assert (Hpos : (0 < qc (Z.of_nat d))%Qc) by (rewrite <- qc_0; apply qc_lt; lia).
  assert (Hne : qc (Z.of_nat d) <> 0%Qc).
  { intros E. rewrite E in Hpos. by apply Qclt_not_eq in Hpos. }
  assert (H1 : (qc (Z.of_nat n) * / qc (Z.of_nat d) <= 1)%Qc).
  { rewrite <- (Qcmult_inv_r (qc (Z.of_nat d))) by done.
    apply Qcmult_le_compat_r; [apply qc_le; lia|].
    apply Qclt_le_weak, Qcinv_pos, Hpos. }
  rewrite <- (Qcmult_1_l (qc 100)) at 2.
  apply Qcmult_le_compat_r; [done|]. rewrite <- qc_0. apply qc_le. lia.
Qed.

Lemma min_qc_id (x y : Qc) : (x <= y)%Qc -> ATSScorer.min_qc x y = x.
Proof. intros H. unfold ATSScorer.min_qc. by rewrite bool_decide_eq_true_2. Qed.

Lemma min_qc_le_r (x y : Qc) : (ATSScorer.min_qc x y <= y)%Qc.
Proof.
  unfold ATSScorer.min_qc. case_bool_decide; [done|]. apply Qcle_refl.
Qed.

Lemma round_100 : Py.round (qc 100) 1 = qc 100.
Proof. by apply Qc_is_canon. Qed.

Lemma round_0 : Py.round 0 1 = 0%Qc.
Proof. by apply Qc_is_canon. Qed.

(* ===================================================================== *)
(** ** The skill comparison *)
(* ===================================================================== *)

Section Skills.
Context {order : SetOrder}.
Import ATSScorer.

Lemma exact_subseteq_job (rs js : gset string) :
  exact_matches rs js ⊆ lowered js.
Proof. unfold exact_matches. set_solver. Qed.

Lemma fuzzy_subseteq_remaining (rs js : gset string) :
  fuzzy_matches rs js ⊆ lowered js ∖ exact_matches rs js.
Proof. intros x Hx. by apply elem_of_fuzzy in Hx as [? _]. Qed.

Lemma lowered_empty_iff (s : gset string) : lowered s = ∅ <-> s = ∅.
Proof.
  split.
  - intros H. apply set_eq. intros x. split; [|set_solver].
    intros Hx. assert (norm x ∈ lowered s) by (apply elem_of_lowered; eauto).
    set_solver.
  - intros ->. apply set_eq. intros y. rewrite elem_of_lowered. set_solver.
Qed.

(** The original-case skills kept by the last loop of [_score_skills]. *)
Lemma elem_of_matched_loop (found js : gset string) (x : string) :
  x ∈ foldl (fun (matched : gset string) o =>
               if bool_decide (norm o ∈ found) then {[o]} ∪ matched else matched)
            ∅ (set_iter js)
  <-> x ∈ js /\ norm x ∈ found.
Proof.
  rewrite (elem_of_collect (fun o => bool_decide (norm o ∈ found))).
  rewrite elem_of_set_iter, bool_decide_eq_true. set_solver.
Qed.

(** C10.  In [_score_skills] the exact matches and the fuzzy matches are
    disjoint subsets of the lowercased job skills, so their sizes add up to
    at most the number of distinct lowercased job skills, and the final
    [min(score, 100.0)] leaves the score as it was computed. *)
Theorem exact_and_fuzzy_within_job_skills (rs js : gset string) :
  exact_matches rs js ## fuzzy_matches rs js /\
  exact_matches rs js ⊆ lowered js /\
  fuzzy_matches rs js ⊆ lowered js /\
  (size (exact_matches rs js) + size (fuzzy_matches rs js) <= size (lowered js))%nat /\
  min_qc (raw_skills_score rs js) (qc 100) = raw_skills_score rs js.
Proof.
  pose proof (exact_subseteq_job rs js) as He.
  pose proof (fuzzy_subseteq_remaining rs js) as Hf.
  assert (Hd : exact_matches rs js ## fuzzy_matches rs js) by set_solver.
  assert (Hsz : (size (exact_matches rs js) + size (fuzzy_matches rs js)
                 <= size (lowered js))%nat).
  { rewrite <- size_union by done. apply subseteq_size. set_solver. }
  repeat split; [done|done|set_solver|done|].
  apply min_qc_id. unfold raw_skills_score, is_empty_set.
  case_bool_decide as Hjl.
  - apply Qcle_refl.
  - apply percent_le_100; [done|].
    destruct (size (lowered js)) eqn:E; [|lia].
    apply size_empty_inv in E. by apply leibniz_equiv in E.
Qed.

Lemma score_skills_sets (rs js : gset string) :
  let '(_, matched, missing) := _score_skills rs js in
  matched ⊆ js /\ missing = js ∖ matched.
Proof.
  unfold _score_skills, is_empty_set. case_bool_decide as Hjs.
  - subst. set_solver.
  - split; [|done]. intros x Hx. by apply elem_of_matched_loop in Hx as [? _].
Qed.

End Skills.

(* ===================================================================== *)
(** ** The fields of the result of [calculate_score] *)
(* ===================================================================== *)

Section Result.
Context {order : SetOrder} {V : Vectorizer}.
Import ATSScorer.

Lemma skills_score_eq (r : resume_data) (j : job_data) :
  skills_score (calculate_score r j)
  = Py.round (_score_skills (resume_skills_of r) (job_skills_of j)).1.1 1.
Proof.
  unfold calculate_score, resume_skills_of, job_skills_of.
  destruct (_score_skills _ _) as [[? ?] ?].
  by destruct (_score_keywords _ _) as [? ?].
Qed.

Lemma matched_skills_eq (r : resume_data) (j : job_data) :
  matched_skills (calculate_score r j)
  = set_iter (_score_skills (resume_skills_of r) (job_skills_of j)).1.2.
Proof.
  unfold calculate_score, resume_skills_of, job_skills_of.
  destruct (_score_skills _ _) as [[? ?] ?].
  by destruct (_score_keywords _ _) as [? ?].
Qed.

Lemma missing_skills_eq (r : resume_data) (j : job_data) :
  missing_skills (calculate_score r j)
  = set_iter (_score_skills (resume_skills_of r) (job_skills_of j)).2.
Proof.
  unfold calculate_score, resume_skills_of, job_skills_of.
  destruct (_score_skills _ _) as [[? ?] ?].
  by destruct (_score_keywords _ _) as [? ?].
Qed.

Lemma keywords_score_eq (r : resume_data) (j : job_data) :
  keywords_score (calculate_score r j)
  = Py.round (_score_keywords (default ∅ (r_keywords r)) (default ∅ (j_keywords j))).1 1.
Proof.
  unfold calculate_score.
  destruct (_score_skills _ _) as [[? ?] ?].
  by destruct (_score_keywords _ _) as [? ?].
Qed.

Lemma experience_score_eq (r : resume_data) (j : job_data) :
  experience_score (calculate_score r j)
  = Py.round (_score_experience (default [] (r_experience r))
                                (default 0 (j_experience_years j))) 1.
Proof.
  unfold calculate_score.
  destruct (_score_skills _ _) as [[? ?] ?].
  by destruct (_score_keywords _ _) as [? ?].
Qed.

Lemma education_score_eq (r : resume_data) (j : job_data) :
  education_score (calculate_score r j)
  = Py.round (_score_education (default [] (r_education r))
                               (default [] (j_education j))) 1.
Proof.
  unfold calculate_score.
  destruct (_score_skills _ _) as [[? ?] ?].
  by destruct (_score_keywords _ _) as [? ?].
Qed.

Lemma semantic_score_eq (r : resume_data) (j : job_data) :
  semantic_score (calculate_score r j)
  = Py.round (MlModel.compute_semantic_similarity
                (Some (default EmptyString (r_text r)))
                (Some (default EmptyString (j_full_text j)))) 1.
Proof.
  unfold calculate_score.
  destruct (_score_skills _ _) as [[? ?] ?].
  by destruct (_score_keywords _ _) as [? ?].
Qed.

(** C2.  The lists [matched_skills] and [missing_skills] of the result have
    no element in common, and together they hold exactly the skills of the
    job, each spelled as the job spells it. *)
Theorem matched_and_missing_partition_job_skills (r : resume_data) (j : job_data) :
  let res := calculate_score r j in
  (forall x, x ∈ matched_skills res -> x ∉ missing_skills res) /\
  (forall x, x ∈ matched_skills res \/ x ∈ missing_skills res
             <-> x ∈ job_skills_of j) /\
  (list_to_set (matched_skills res) ∪ list_to_set (missing_skills res) : gset string)
  = job_skills_of j.
Proof.
  cbn zeta. rewrite matched_skills_eq, missing_skills_eq.
  pose proof (score_skills_sets (resume_skills_of r) (job_skills_of j)) as H.
  destruct (_score_skills _ _) as [[sc matched] missing]. destruct H as [Hsub ->].
  cbn [fst snd]. repeat split.
  - intros x. rewrite !elem_of_set_iter. set_solver.
  - rewrite !elem_of_set_iter. set_solver.
  - rewrite !elem_of_set_iter. intros Hx.
    destruct (decide (x ∈ matched)); set_solver.
  - rewrite !list_to_set_iter. apply set_eq. intros x.
    destruct (decide (x ∈ matched)); set_solver.
Qed.

(** C3.  A job without skills gives a skill score of 100 and no matched and
    no missing skill; a job without education requirements gives an
    education score of 100; a job that asks for 0 years gives an experience
    score of 100. *)
Theorem vacuous_requirements_score_100 (r : resume_data) (j : job_data) :
  let res := calculate_score r j in
  (job_skills_of j = ∅ ->
   skills_score res = qc 100 /\ matched_skills res = [] /\ missing_skills res = []) /\
  (default [] (j_education j) = [] -> education_score res = qc 100) /\
  (default 0 (j_experience_years j) = 0 -> experience_score res = qc 100).
Proof.
  cbn zeta. split; [|split].
  - intros H. rewrite skills_score_eq, matched_skills_eq, missing_skills_eq, H.
    unfold _score_skills, is_empty_set.
    rewrite bool_decide_eq_true_2 by done. cbn [fst snd].
    split; [apply round_100|]. split; apply set_iter_empty.
  - intros H. rewrite education_score_eq, H. apply round_100.
  - intros H. rewrite experience_score_eq, H. apply round_100.
Qed.

End Result.

(* ===================================================================== *)
(** ** What does not depend on the iteration order *)
(* ===================================================================== *)

Section TwoOrders.
Variables o1 o2 : SetOrder.
Import ATSScorer.

Lemma lowered_order (s : gset string) : @lowered o1 s = @lowered o2 s.
Proof. apply set_eq. intros y. by rewrite !elem_of_lowered. Qed.

Lemma exact_order (rs js : gset string) :
  @exact_matches o1 rs js = @exact_matches o2 rs js.
Proof. unfold exact_matches. by rewrite !lowered_order. Qed.

Lemma fuzzy_order (rs js : gset string) :
  @fuzzy_matches o1 rs js = @fuzzy_matches o2 rs js.
Proof.
  apply set_eq. intros x.
  rewrite !elem_of_fuzzy, exact_order, (lowered_order js).
  split; intros [H (y & Hy & Hlt)]; (split; [done|]); exists y; split; try done.
  - by rewrite <- lowered_order.
  - by rewrite lowered_order.
Qed.

Lemma score_skills_order (rs js : gset string) :
  @_score_skills o1 rs js = @_score_skills o2 rs js.
Proof.
  unfold _score_skills. destruct (is_empty_set js); [done|].
  assert (Hm : forall (o : SetOrder) (found : gset string),
             foldl (fun (matched : gset string) p =>
                      if bool_decide (norm p ∈ found) then {[p]} ∪ matched else matched)
                   ∅ (@set_iter o js)
             = filter (fun p => norm p ∈ found) js).
  { intros o found. apply set_eq. intros x.
    rewrite (@elem_of_matched_loop o), elem_of_filter. tauto. }
  rewrite !Hm. unfold raw_skills_score.
  by rewrite !exact_order, !fuzzy_order, !(lowered_order js).
Qed.

Lemma score_keywords_order (rk jk : gset string) :
  @_score_keywords o1 rk jk = @_score_keywords o2 rk jk.
Proof.
  unfold _score_keywords. destruct (is_empty_set jk); [done|].
  assert (Hm : forall (o : SetOrder) (found : gset string),
             foldl (fun (matched : gset string) p =>
                      if bool_decide (norm p ∈ found) then {[p]} ∪ matched else matched)
                   ∅ (@set_iter o jk)
             = filter (fun p => norm p ∈ found) jk).
  { intros o found. apply set_eq. intros x.
    rewrite (@elem_of_matched_loop o), elem_of_filter. tauto. }
  rewrite !Hm. by rewrite !(lowered_order jk), !(lowered_order rk).
Qed.

End TwoOrders.

(* ===================================================================== *)
(** ** The semantic component *)
(* ===================================================================== *)

Section Semantic.
Context {order : SetOrder} {V : Vectorizer}.
Import ATSScorer.

Lemma semantic_zero_on_failure (resume_text job_text : option string) :
  Py.strip (default EmptyString resume_text) = EmptyString \/
  Py.strip (default EmptyString job_text) = EmptyString \/
  cosine (Py.strip (default EmptyString job_text))
         (Py.strip (default EmptyString resume_text)) = Raised ->
  MlModel.compute_semantic_similarity resume_text job_text = 0%Qc.
Proof.
  unfold MlModel.compute_semantic_similarity. intros [H|[H|H]].
  - by rewrite H.
  - rewrite H. by rewrite orb_true_r.
  - rewrite H. by destruct (_ || _).
Qed.

(** C6.  When the resume text or the job text is empty or blank, or the
    similarity computation raises, the semantic score of the result is 0;
    [calculate_score] returns its result all the same, and the four other
    component scores and the skill lists are the ones it returns with any
    other estimator. *)
Theorem semantic_failure_scores_zero (r : resume_data) (j : job_data) :
  let resume_text := Py.strip (default EmptyString (r_text r)) in
  let job_text := Py.strip (default EmptyString (j_full_text j)) in
  resume_text = EmptyString \/ job_text = EmptyString \/
  cosine job_text resume_text = Raised ->
  let res := calculate_score r j in
  semantic_score res = 0%Qc /\
  forall V' : Vectorizer,
    let res' := @calculate_score order V' r j in
    skills_score res = skills_score res' /\
    keywords_score res = keywords_score res' /\
    experience_score res = experience_score res' /\
    education_score res = education_score res' /\
    matched_skills res = matched_skills res' /\
    missing_skills res = missing_skills res'.
Proof.
  cbn zeta. intros H. split.
  - rewrite semantic_score_eq, semantic_zero_on_failure by done. apply round_0.
  - intros V'.
    by rewrite !skills_score_eq, !keywords_score_eq, !experience_score_eq,
       !education_score_eq, !matched_skills_eq, !missing_skills_eq.
Qed.

End Semantic.

(* ===================================================================== *)
(** ** Two calls on the same data *)
(* ===================================================================== *)

Lemma take_nonempty {A} (n : nat) (l : list A) :
  (0 < n)%nat -> l <> [] -> exists x rest, take n l = x :: rest.
Proof.
  intros Hn Hl. destruct n as [|n]; [lia|]. destruct l as [|x l]; [done|].
  by exists x, (take n l).
Qed.

Section TwoCalls.
Variables o1 o2 : SetOrder.
Context {V : Vectorizer}.
Import ATSScorer.

(** C9, as the code has it.  Two calls of [calculate_score] on the same
    resume data and the same job data, the first meeting the iteration order
    [o1] of sets and the second the order [o2], return the same overall score
    and the same five component scores, matched and missing skill lists with
    the same members, and the same strengths.  Their suggestions are the same
    as soon as both calls list the missing skills in the same order; in every
    case the two sequences differ at most in their first sentence, the one
    that names the first five missing skills in the order in which the call
    lists them, and are the same when no skill is missing. *)
Theorem two_calls_same_result (r : resume_data) (j : job_data) :
  let res1 := @calculate_score o1 V r j in
  let res2 := @calculate_score o2 V r j in
  overall_score res1 = overall_score res2 /\
  skills_score res1 = skills_score res2 /\
  keywords_score res1 = keywords_score res2 /\
  experience_score res1 = experience_score res2 /\
  education_score res1 = education_score res2 /\
  semantic_score res1 = semantic_score res2 /\
  (forall x, x ∈ matched_skills res1 <-> x ∈ matched_skills res2) /\
  (forall x, x ∈ missing_skills res1 <-> x ∈ missing_skills res2) /\
  strengths res1 = strengths res2 /\
  (missing_skills res1 = missing_skills res2 -> suggestions res1 = suggestions res2) /\
  (exists rest,
     (missing_skills res1 = [] /\ missing_skills res2 = [] /\
      suggestions res1 = rest /\ suggestions res2 = rest) \/
     (suggestions res1 = missing_sentence (take 5 (missing_skills res1)) :: rest /\
      suggestions res2 = missing_sentence (take 5 (missing_skills res2)) :: rest)).
Proof.
  cbn zeta. unfold calculate_score.
  rewrite (score_skills_order o1 o2), (score_keywords_order o1 o2).
  destruct (@_score_skills o2 _ _) as [[ss matched] missing].
  destruct (@_score_keywords o2 _ _) as [ks mk]. cbn [overall_score skills_score
    keywords_score experience_score education_score semantic_score matched_skills
    missing_skills strengths suggestions].
  repeat split; try done.
  - by rewrite !elem_of_set_iter.
  - by rewrite !elem_of_set_iter.
  - by rewrite !elem_of_set_iter.
  - by rewrite !elem_of_set_iter.
  - intros Hsame. unfold _generate_suggestions. by rewrite Hsame.
  - unfold _generate_suggestions, is_empty_set, Py.append.
    destruct (decide (missing = ∅)) as [Hm|Hm].
    + rewrite (bool_decide_eq_true_2 _ Hm). cbn [negb]. subst missing.
      rewrite !set_iter_empty. eexists. left. by repeat split.
    + rewrite (bool_decide_eq_false_2 _ Hm). cbn [negb].
      assert (H1 : @set_iter o1 missing <> []).
      { intros E. apply Hm. by rewrite <- (@list_to_set_iter o1 missing), E. }
      assert (H2 : @set_iter o2 missing <> []).
      { intros E. apply Hm. by rewrite <- (@list_to_set_iter o2 missing), E. }
      destruct (take_nonempty 5 (@set_iter o1 missing)) as [x1 [l1 E1]]; [lia|done|].
      destruct (take_nonempty 5 (@set_iter o2 missing)) as [x2 [l2 E2]]; [lia|done|].
      rewrite E1, E2.
      repeat match goal with
             | |- context [bool_decide ?P] => destruct (bool_decide P)
             | |- context [(?a <? ?b)%Z] => destruct (a <? b)%Z
             | |- context [(?a <? ?b)%nat] => destruct (a <? b)%nat
             | |- context [(?a =? ?b)%nat] => destruct (a =? b)%nat
             end; eexists; right; split; reflexivity.
Qed.

End TwoCalls.

(* ===================================================================== *)
(** ** The suggestions *)
(* ===================================================================== *)

Section Suggestions.
Context {order : SetOrder}.
Import ATSScorer.

(** Case analysis on every condition of the rules. *)
Ltac all_conditions :=
  repeat match goal with
         | |- context [bool_decide ?P] => destruct (bool_decide P)
         | |- context [(?a <? ?b)%Z] => destruct (a <? b)%Z
         | |- context [(?a <? ?b)%nat] => destruct (a <? b)%nat
         | |- context [(?a =? ?b)%nat] => destruct (a =? b)%nat
         end.

(** A row of the table that carries another sentence. *)
Ltac differ E :=
  unfold ATSScorer.missing_sentence, ATSScorer.low_sentence, ATSScorer.mid_sentence,
    ATSScorer.semantic_sentence, ATSScorer.visibility_sentence,
    ATSScorer.keywords_sentence, ATSScorer.formatting_sentence in E;
  cbn [String.append] in E; discriminate E.

Ltac wrong_row E := apply (f_equal snd) in E; cbn [snd] in E; differ E.

Lemma set_iter_nonempty (s : gset string) : s <> ∅ -> set_iter s <> [].
Proof.
  intros Hs E. apply Hs. rewrite <- (list_to_set_iter s), E. done.
Qed.

Lemma suggestions_as_table (missing : gset string) (job : job_data)
      (resume : resume_data) (overall semantic : Qc) :
  _generate_suggestions missing job resume overall semantic
  = emitted (suggestion_table missing job resume overall semantic).
Proof.
  unfold _generate_suggestions, suggestion_table, emitted, is_empty_set, Py.append.
  destruct (decide (missing = ∅)) as [Hm|Hm].
  - rewrite (bool_decide_eq_true_2 _ Hm). cbn [negb].
    all_conditions; reflexivity.
  - rewrite (bool_decide_eq_false_2 _ Hm). cbn [negb].
    apply set_iter_nonempty in Hm.
    destruct (set_iter missing) as [|x l] eqn:E; [done|]. cbn [take].
    all_conditions; reflexivity.
Qed.

Lemma elem_of_emitted (x : string) (table : list (bool * string)) :
  x ∈ emitted table <-> (true, x) ∈ table.
Proof.
  unfold emitted. induction table as [|[c y] t IH]; simpl.
  - by rewrite !elem_of_nil.
  - destruct c; simpl; rewrite ?elem_of_cons, IH; [|split].
    + split; intros [E|?]; auto; left; congruence.
    + auto.
    + intros [E|?]; [congruence|done].
Qed.

Lemma emitted_snoc (table : list (bool * string)) (x : string) :
  emitted (table ++ [(true, x)]) = emitted table ++ [x].
Proof. unfold emitted. by rewrite List.filter_app, map_app. Qed.

(** C8.  The suggestions are the sentences of the rule table whose condition
    holds, each rule judged on its own, in the order of the table.  The
    sentence on missing skills names the first five of them at most.  The
    sentence for a score below 60 and the one for a score below 80 never
    come together: the second is there exactly when the overall score is at
    least 60 and below 80.  The sentence on formatting always closes the
    list, which is therefore never empty. *)
Theorem suggestions_follow_rule_table (missing : gset string) (job : job_data)
        (resume : resume_data) (overall semantic : Qc) :
  let s := _generate_suggestions missing job resume overall semantic in
  let top_missing := take 5 (set_iter missing) in
  s = emitted (suggestion_table missing job resume overall semantic) /\
  ((length top_missing <= 5)%nat /\ top_missing `prefix_of` set_iter missing) /\
  (missing <> ∅ <-> head s = Some (missing_sentence top_missing)) /\
  (low_sentence ∈ s <-> (overall < qc 60)%Qc) /\
  (mid_sentence ∈ s <-> (qc 60 <= overall)%Qc /\ (overall < qc 80)%Qc) /\
  ~ (low_sentence ∈ s /\ mid_sentence ∈ s) /\
  (exists before, s = before ++ [formatting_sentence]) /\
  s <> [].
Proof.
  cbn zeta. rewrite suggestions_as_table.
  assert (Hlow : low_sentence ∈ emitted (suggestion_table missing job resume overall semantic)
                 <-> (overall < qc 60)%Qc).
  { rewrite elem_of_emitted. unfold suggestion_table. rewrite !elem_of_cons, elem_of_nil.
    split.
    - intros [E|[E|[E|[E|[E|[E|[E|[]]]]]]]]; try (by wrong_row E).
      apply (f_equal fst) in E. cbn [fst] in E. symmetry in E.
      by apply bool_decide_eq_true in E.
    - intros H. right; left. by rewrite bool_decide_eq_true_2. }
  assert (Hmid : mid_sentence ∈ emitted (suggestion_table missing job resume overall semantic)
                 <-> (qc 60 <= overall)%Qc /\ (overall < qc 80)%Qc).
  { rewrite elem_of_emitted. unfold suggestion_table. rewrite !elem_of_cons, elem_of_nil.
    split.
    - intros [E|[E|[E|[E|[E|[E|[E|[]]]]]]]]; try (by wrong_row E).
      apply (f_equal fst) in E. cbn [fst] in E. symmetry in E.
      apply andb_true_iff in E as [Ha Hb].
      apply negb_true_iff, bool_decide_eq_false in Ha.
      apply bool_decide_eq_true in Hb. split; [|done]. by apply Qcle_ngt.
    - intros [Ha Hb]. right; right; left.
      apply Qcle_ngt in Ha.
      by rewrite (bool_decide_eq_false_2 _ Ha), (bool_decide_eq_true_2 _ Hb). }
  assert (Hlast : exists before,
             emitted (suggestion_table missing job resume overall semantic)
             = before ++ [formatting_sentence]).
  { unfold suggestion_table.
    match goal with
    | |- context [emitted [?a; ?b; ?c; ?d; ?e; ?f; (true, ?g)]] =>
        change [a; b; c; d; e; f; (true, g)] with ([a; b; c; d; e; f] ++ [(true, g)])
    end.
    rewrite emitted_snoc. by eexists. }
  split; [done|]. split; [|split; [|split; [done|split; [done|split; [|split]]]]].
  - split; [rewrite length_take; lia|]. apply prefix_take.
  - unfold suggestion_table, emitted, is_empty_set.
    destruct (decide (missing = ∅)) as [Hm|Hm].
    + rewrite (bool_decide_eq_true_2 _ Hm). cbn [negb]. split; [done|].
      intros H. exfalso. revert H.
      all_conditions; cbn [List.filter fst snd map head negb andb];
        intros E; apply (inj Some) in E; differ E.
    + by rewrite (bool_decide_eq_false_2 _ Hm).
  - intros [Hl Hm]. apply Hlow in Hl. apply Hmid in Hm as [Hm _].
    by apply Qcle_ngt in Hm.
  - done.
  - destruct Hlast as [before ->]. by destruct before.
Qed.

End Suggestions.

(* ===================================================================== *)
(** ** Soundness of the matcher *)
(* ===================================================================== *)

Section MatcherSoundness.
Import Re ReSpec.
Variable ic : bool.


End MatcherSoundness.

Section Numerals.
Import Re ReSpec.
Variable ic : bool.








End Numerals.

Section CapturedNumber.
Import Re ReSpec.
Variable ic : bool.






End CapturedNumber.



(* ===================================================================== *)
(** ** The required years of experience *)
(* ===================================================================== *)

Section RequiredYears.
Import JobDescriptionParser.





End RequiredYears.

(* ===================================================================== *)
(** ** The experience comparison *)
(* ===================================================================== *)

Section Experience.
Import ATSScorer.

Lemma total_years_estimate (l : list exp_entry) :
  extracted_years l = 0 -> l <> [] -> total_years l = Z.of_nat (length l) * 2.
Proof.
  intros H0 Hl. unfold total_years. rewrite H0. simpl.
  by rewrite bool_decide_eq_false_2.
Qed.

Lemma total_years_extracted (l : list exp_entry) :
  extracted_years l <> 0 -> total_years l = extracted_years l.
Proof.
  intros H0. unfold total_years.
  destruct (Z.eqb_spec (extracted_years l) 0); [done|]. done.
Qed.

(** C4.  One position dated "2020 - 2020": both years are read from the date
    string and their difference, 0, is what the entry adds; the scorer then
    takes the total of 0 for a failure to read any year and puts the
    estimate of two years in its place, so the score for 3 required years is
    200/3 and not 0. *)
Theorem same_year_entry_gets_estimate :
  Re.findall1 false year_pattern "2020 - 2020" = ["2020"; "2020"]%string /\
  extracted_years same_year_experience = 0 /\
  total_years same_year_experience = 2 /\
  _score_experience same_year_experience 3 = Q2Qc (200 # 3).
Proof.
  repeat split; by vm_compute.
Qed.

End Experience.

(* ===================================================================== *)
(** ** Evaluations *)
(* ===================================================================== *)

Section Evaluations.
Context {order : SetOrder} {V : Vectorizer}.
Import ATSScorer.

Lemma overall_score_eq (r : resume_data) (j : job_data) :
  overall_score (calculate_score r j)
  = Py.round
      (weighted (_score_skills (resume_skills_of r) (job_skills_of j)).1.1
                (_score_keywords (default ∅ (r_keywords r)) (default ∅ (j_keywords j))).1
                (_score_experience (default [] (r_experience r))
                                   (default 0 (j_experience_years j)))
                (_score_education (default [] (r_education r))
                                  (default [] (j_education j)))
                (MlModel.compute_semantic_similarity
                   (Some (default EmptyString (r_text r)))
                   (Some (default EmptyString (j_full_text j))))) 1.
Proof.
  unfold calculate_score, _score_semantic.
  destruct (_score_skills _ _) as [[? ?] ?].
  by destruct (_score_keywords _ _) as [? ?].
Qed.

End Evaluations.

Section Scenarios.
Context {order : SetOrder} {V : Vectorizer}.
Import ATSScorer.

(** C1.  The resume text "Experience / 2022 - 2019 Engineer" gives one
    position whose dates read 2022 then 2019.  Against a job that asks for one
    year, the experience score of the result is -300; with a job skill, a
    job keyword and a degree that the resume does not have, and a similarity
    of 0, the overall score is -45.  Both lie outside [0,100], although the
    overall score is the weighted sum rounded to one decimal. *)
Theorem inverted_dates_score_below_zero :
  ResumeParser.extract_experience inverted_resume_text
  = default [] (r_experience inverted_resume) /\
  experience_score (calculate_score inverted_resume java_job) = qc (-300) /\
  overall_score (@calculate_score order failing_vectorizer inverted_resume java_job)
  = qc (-45) /\
  overall_score (@calculate_score order failing_vectorizer inverted_resume java_job)
  = Py.round (weighted 0 0 (qc (-300)) 0 0) 1.
Proof.
  split; [by vm_compute|]. split; [|split].
  - rewrite experience_score_eq. apply Qc_is_canon. by vm_compute.
  - rewrite overall_score_eq, (score_skills_order order elements_order),
      (score_keywords_order order elements_order).
    apply Qc_is_canon. by vm_compute.
  - rewrite overall_score_eq, (score_skills_order order elements_order),
      (score_keywords_order order elements_order).
    apply Qc_is_canon. by vm_compute.
Qed.

(** C5, as the code has it.  On the two texts of the scenario the job parser
    finds six skills (Python, Java, R, Minimum, Bachelor and
    "skills: Python"), of which the resume matches two, Python and R: the
    skill score is 33.3 and four skills are missing.  The resume text has no
    experience header, so no position is read from it, and against the 3
    required years the experience score is 0. *)
Theorem scenario_scores (keywords : gset string) :
  exists job, extract_requirements scenario_job_text = Returned job /\
  let res := calculate_score (scenario_resume keywords) job in
  job_skills_of job
  = {[ "Python"; "Java"; "R"; "Minimum"; "Bachelor"; "skills: Python" ]} /\
  j_experience_years job = Some 3 /\
  r_experience (scenario_resume keywords) = Some [] /\
  skills_score res = Q2Qc (333 # 10) /\
  experience_score res = 0%Qc /\
  (list_to_set (matched_skills res) : gset string) = {[ "Python"; "R" ]} /\
  (list_to_set (missing_skills res) : gset string)
  = {[ "Java"; "Minimum"; "Bachelor"; "skills: Python" ]}.
Proof.
  unfold extract_requirements.
  replace (JobDescriptionParser._extract_experience_years scenario_job_text)
    with (Returned 3 : outcome Z) by (by vm_compute).
  eexists. split; [reflexivity|]. cbn zeta.
  rewrite skills_score_eq, experience_score_eq, matched_skills_eq, missing_skills_eq.
  rewrite !list_to_set_iter, (score_skills_order order elements_order).
  repeat split; try (by vm_compute).
  all: apply Qc_is_canon; by vm_compute.
Qed.

End Scenarios.

(* ===================================================================== *)
(** ** Ranges of the component scores *)
(* ===================================================================== *)

Section Ranges.
Context {order : SetOrder}.
Import ATSScorer.

Lemma qc_100_nonneg : (0 <= qc 100)%Qc.
Proof. rewrite <- qc_0. apply qc_le. lia. Qed.

Lemma min_qc_nonneg (x y : Qc) : (0 <= x)%Qc -> (0 <= y)%Qc -> (0 <= min_qc x y)%Qc.
Proof. intros Hx Hy. unfold min_qc. by case_bool_decide. Qed.

Lemma score_skills_range (rs js : gset string) :
  (0 <= (_score_skills rs js).1.1 <= qc 100)%Qc.
Proof.
  unfold _score_skills. destruct (is_empty_set js); cbn [fst].
  - split; [apply qc_100_nonneg|apply Qcle_refl].
  - split; [|apply min_qc_le_r]. apply min_qc_nonneg; [|apply qc_100_nonneg].
    unfold raw_skills_score. destruct (is_empty_set _);
      [apply qc_100_nonneg|apply percent_nonneg].
Qed.

Lemma score_keywords_range (rk jk : gset string) :
  (0 <= (_score_keywords rk jk).1 <= qc 100)%Qc.
Proof.
  unfold _score_keywords. destruct (is_empty_set jk); cbn [fst].
  - split; [apply qc_100_nonneg|apply Qcle_refl].
  - split; [|apply min_qc_le_r]. apply min_qc_nonneg; [|apply qc_100_nonneg].
    destruct (is_empty_set _); [apply qc_100_nonneg|apply percent_nonneg].
Qed.

Lemma score_education_range (re je : list string) :
  (0 <= _score_education re je <= qc 100)%Qc.
Proof.
  unfold _score_education. destruct je as [|e je].
  - split; [apply qc_100_nonneg|apply Qcle_refl].
  - split; [|apply min_qc_le_r].
    apply min_qc_nonneg; [apply percent_nonneg|apply qc_100_nonneg].
Qed.

(** The experience score is within range when the years read from the
    resume do not add up to less than zero. *)
Lemma score_experience_range (l : list exp_entry) (required_years : Z) :
  0 <= total_years l -> 0 <= required_years ->
  (0 <= _score_experience l required_years <= qc 100)%Qc.
Proof.
  intros Ht Hr. unfold _score_experience.
  destruct (Z.eqb_spec required_years 0) as [|Hne].
  { split; [apply qc_100_nonneg|apply Qcle_refl]. }
  destruct (Z.leb_spec required_years (total_years l)) as [|Hlt].
  { split; [apply qc_100_nonneg|apply Qcle_refl]. }
  assert (Hpos : (0 < qc required_years)%Qc) by (rewrite <- qc_0; apply qc_lt; lia).
  assert (Hinv : (0 <= / qc required_years)%Qc) by (apply Qclt_le_weak, Qcinv_pos, Hpos).
  assert (Hn : (0 <= qc (total_years l))%Qc) by (rewrite <- qc_0; apply qc_le; lia).
  unfold Qcdiv. split.
  - apply Qcmult_nonneg_nonneg; [apply Qcmult_nonneg_nonneg|apply qc_100_nonneg]; done.
  - assert (Hne' : qc required_years <> 0%Qc).
    { intros E. rewrite E in Hpos. by apply Qclt_not_eq in Hpos. }
    rewrite <- (Qcmult_1_l (qc 100)) at 2.
    apply Qcmult_le_compat_r; [|apply qc_100_nonneg].
    rewrite <- (Qcmult_inv_r (qc required_years)) by done.
    apply Qcmult_le_compat_r; [apply qc_le; lia|done].
Qed.

End Ranges.

(* ===================================================================== *)
(** ** The scenario of the specification, and instances of the theorems *)
(* ===================================================================== *)

(** C5, as stated.  On the two texts of the scenario the skill score is not
    50, the experience score is not 100, and "Java" is not the only missing
    skill. *)
Lemma scenario_as_stated_fails :
  exists res, scenario_result = Returned res /\
  skills_score res <> qc 50 /\
  experience_score res <> qc 100 /\
  (list_to_set (missing_skills res) : gset string) <> {[ "Java" ]}.
Proof.
  unfold scenario_result, extract_requirements.
  replace (JobDescriptionParser._extract_experience_years scenario_job_text)
    with (Returned 3 : outcome Z) by (by vm_compute).
  eexists. split; [reflexivity|]. split; [|split].
  - intros H. apply (f_equal this) in H. vm_compute in H. discriminate H.
  - intros H. apply (f_equal this) in H. vm_compute in H. discriminate H.
  - intros H.
    match type of H with
    | ?lhs = _ => assert (Hin : "Minimum" ∈ lhs) by (by vm_compute)
    end.
    rewrite H in Hin. apply elem_of_singleton in Hin. discriminate Hin.
Qed.

(** C2 on a resume that writes "JAVA" for a job that asks for "Java". *)
Lemma partition_witness :
  "Java" ∈ matched_skills java_result /\ "Java" ∉ missing_skills java_result.
Proof.
  assert (H : "Java" ∈ matched_skills java_result) by (vm_compute; constructor).
  split; [exact H|].
  exact (proj1 (@matched_and_missing_partition_job_skills
                  elements_order failing_vectorizer java_resume java_job) "Java" H).
Defined.

(** C3 on a job description without any requirement. *)
Lemma vacuous_witness :
  (job_skills_of empty_job = ∅ /\ default [] (j_education empty_job) = []
   /\ default 0 (j_experience_years empty_job) = 0) /\
  skills_score empty_result = qc 100 /\ matched_skills empty_result = [] /\
  missing_skills empty_result = [] /\ education_score empty_result = qc 100 /\
  experience_score empty_result = qc 100.
Proof.
  destruct (@vacuous_requirements_score_100
              elements_order failing_vectorizer empty_resume empty_job)
    as (Hs & He & Hx).
  destruct (Hs eq_refl) as (H1 & H2 & H3).
  exact (conj (conj eq_refl (conj eq_refl eq_refl))
              (conj H1 (conj H2 (conj H3 (conj (He eq_refl) (Hx eq_refl)))))).
Defined.

(** C6 with a vectorizer that raises on every pair of texts. *)
Lemma semantic_failure_witness :
  cosine (Vectorizer := failing_vectorizer)
         (Py.strip "Java, 1+ years of experience, Master of Science")
         (Py.strip "JAVA developer") = Raised /\
  semantic_score java_result = 0%Qc.
Proof.
  split; [reflexivity|].
  exact (proj1 (@semantic_failure_scores_zero
                  elements_order failing_vectorizer java_resume java_job
                  (or_intror (or_intror eq_refl)))).
Defined.


(** C9 on a job that asks for Java and Rust and a resume that has Rust: the
    two orders list the job's skills differently, Java is the one missing
    skill in both, and the suggestions are the same. *)
Lemma two_calls_witness :
  @set_iter elements_order {[ "Java"; "Rust" ]}
  <> @set_iter reverse_order {[ "Java"; "Rust" ]} /\
  missing_skills (@ATSScorer.calculate_score elements_order failing_vectorizer
                    rust_resume two_skill_job)
  = missing_skills (@ATSScorer.calculate_score reverse_order failing_vectorizer
                      rust_resume two_skill_job) /\
  suggestions (@ATSScorer.calculate_score elements_order failing_vectorizer
                 rust_resume two_skill_job)
  = suggestions (@ATSScorer.calculate_score reverse_order failing_vectorizer
                   rust_resume two_skill_job).
Proof.
  assert (H : missing_skills (@ATSScorer.calculate_score elements_order
                                failing_vectorizer rust_resume two_skill_job)
              = missing_skills (@ATSScorer.calculate_score reverse_order
                                  failing_vectorizer rust_resume two_skill_job))
    by (vm_compute; reflexivity).
  split; [by vm_compute|]. split; [exact H|].
  destruct (@two_calls_same_result elements_order reverse_order failing_vectorizer
              rust_resume two_skill_job)
    as (_ & _ & _ & _ & _ & _ & _ & _ & _ & Hs & _).
  exact (Hs H).
Defined.

(** C9, as stated.  On a job that asks for Java and Rust and a resume
    without skills, a call that lists sets in one order and a call that lists
    them in the reverse order return different suggestions: the first
    sentence names the two missing skills in the order of the call. *)
Lemma two_calls_differ_in_suggestions :
  hd_error (suggestions (@ATSScorer.calculate_score elements_order failing_vectorizer
                           empty_resume two_skill_job))
  = Some (ATSScorer.missing_sentence ["Java"; "Rust"]) /\
  hd_error (suggestions (@ATSScorer.calculate_score reverse_order failing_vectorizer
                           empty_resume two_skill_job))
  = Some (ATSScorer.missing_sentence ["Rust"; "Java"]) /\
  suggestions (@ATSScorer.calculate_score elements_order failing_vectorizer
                 empty_resume two_skill_job)
  <> suggestions (@ATSScorer.calculate_score reverse_order failing_vectorizer
                    empty_resume two_skill_job).
Proof.
  split; [by vm_compute|]. split; [by vm_compute|].
  intros E. apply (f_equal hd_error) in E. vm_compute in E. discriminate E.
Qed.

(* ===================================================================== *)
(** ** Rounding keeps a score within its bounds *)
(* ===================================================================== *)

Section Rounding.
Import ATSScorer.

Lemma round_half_even_range (q : Q) (lo hi : Z) :
  (inject_Z lo <= q)%Q -> (q <= inject_Z hi)%Q ->
  lo <= Py.round_half_even q <= hi.
Proof.
  destruct q as [n d]. unfold Qle, Py.round_half_even. simpl. intros Hlo Hhi.
  pose proof (Z.div_mod n (Z.pos d) ltac:(lia)) as Hdm.
  pose proof (Z.mod_pos_bound n (Z.pos d) ltac:(lia)) as Hr.
  set (f := n / Z.pos d) in *. set (r := n mod Z.pos d) in *.
  assert (lo <= f) by nia. assert (f <= hi) by nia.
  destruct (Z.compare_spec (2 * r) (Z.pos d)).
  - assert (f + 1 <= hi) by nia. destruct (Z.even f); lia.
  - lia.
  - assert (f + 1 <= hi) by nia. lia.
Qed.

Lemma this_qc (n : Z) : (this (qc n) == inject_Z n)%Q.
Proof. unfold qc. simpl. apply Qred_correct. Qed.

Lemma round_range (x : Qc) (nd : nat) (lo hi : Z) :
  (qc lo <= x)%Qc -> (x <= qc hi)%Qc ->
  (qc lo <= Py.round x nd)%Qc /\ (Py.round x nd <= qc hi)%Qc.
Proof.
  unfold Qcle. rewrite !this_qc. intros Hlo Hhi. unfold Py.round.
  set (p := 10 ^ Z.of_nat nd).
  assert (Hp : 0 < p) by (apply Z.pow_pos_nonneg; lia).
  assert (HpQ : (0 < inject_Z p)%Q) by (unfold Qlt; simpl; lia).
  destruct (round_half_even_range (this x * inject_Z p) (lo * p) (hi * p)) as [H1 H2].
  { rewrite inject_Z_mult. apply Qmult_le_compat_r; [done|]. by apply Qlt_le_weak. }
  { rewrite inject_Z_mult. apply Qmult_le_compat_r; [done|]. by apply Qlt_le_weak. }
  simpl. rewrite !Qred_correct. split.
  - apply Qle_shift_div_l; [done|]. rewrite <- inject_Z_mult.
    unfold Qle. simpl. lia.
  - apply Qle_shift_div_r; [done|]. rewrite <- inject_Z_mult.
    unfold Qle. simpl. lia.
Qed.

Lemma in_range_0_100 (x : Qc) :
  (0 <= x <= qc 100)%Qc -> (0 <= Py.round x 1 <= qc 100)%Qc.
Proof.
  intros [H0 H1]. rewrite <- qc_0 in H0 |- *. by apply round_range.
Qed.

End Rounding.

(* ===================================================================== *)
(** ** Ranges of the fields of the result *)
(* ===================================================================== *)

Section ResultRanges.
Context {order : SetOrder} {V : Vectorizer}.
Import ATSScorer.

(** X1.  Whatever the resume and the job, the skills score, the keywords
    score and the education score of the result lie between 0 and 100. *)
Theorem clamped_scores_in_range (r : resume_data) (j : job_data) :
  let res := calculate_score r j in
  (0 <= skills_score res <= qc 100)%Qc /\
  (0 <= keywords_score res <= qc 100)%Qc /\
  (0 <= education_score res <= qc 100)%Qc.
Proof.
  cbn zeta. rewrite skills_score_eq, keywords_score_eq, education_score_eq.
  split; [|split]; apply in_range_0_100.
  - apply score_skills_range.
  - apply score_keywords_range.
  - apply score_education_range.
Qed.

Lemma extracted_years_nonneg (l : list exp_entry) :
  (forall e, e ∈ l -> 0 <= entry_years e) -> 0 <= extracted_years l.
Proof.
  unfold extracted_years. intros H.
  assert (G : forall acc, 0 <= acc ->
                0 <= foldl (fun total exp => total + entry_years exp) acc l).
  { induction l as [|e l IH]; intros acc Hacc; simpl; [done|].
    apply IH.
    - intros e' He'. apply H. by apply list_elem_of_further.
    - assert (0 <= entry_years e) by (apply H; apply list_elem_of_here). lia. }
  by apply G.
Qed.

Lemma total_years_nonneg (l : list exp_entry) :
  0 <= extracted_years l -> 0 <= total_years l.
Proof.
  intros H. unfold total_years. destruct (_ && _); lia.
Qed.

(** X2.  When no position of the resume has its second year before its
    first, and the job does not ask for a negative number of years, the
    experience score of the result lies between 0 and 100. *)
Theorem experience_score_in_range (r : resume_data) (j : job_data) :
  (forall e, e ∈ default [] (r_experience r) -> 0 <= entry_years e) ->
  0 <= default 0 (j_experience_years j) ->
  (0 <= experience_score (calculate_score r j) <= qc 100)%Qc.
Proof.
  intros He Hj. rewrite experience_score_eq. apply in_range_0_100.
  apply score_experience_range; [|done].
  by apply total_years_nonneg, extracted_years_nonneg.
Qed.

Lemma semantic_range_spec (resume_text job_text : option string) :
  (forall a b x, cosine a b = Returned x -> (0 <= x <= 1)%Qc) ->
  (0 <= MlModel.compute_semantic_similarity resume_text job_text <= qc 100)%Qc.
Proof.
  intros Hcos. unfold MlModel.compute_semantic_similarity.
  destruct (_ || _); [split; [done|apply qc_100_nonneg]|].
  destruct (cosine _ _) as [x|] eqn:E; [|split; [done|apply qc_100_nonneg]].
  destruct (Hcos _ _ _ E) as [H0 H1].
  rewrite <- qc_0. apply round_range.
  - rewrite qc_0. apply Qcmult_nonneg_nonneg; [done|apply qc_100_nonneg].
  - rewrite <- (Qcmult_1_l (qc 100)) at 2.
    apply Qcmult_le_compat_r; [done|apply qc_100_nonneg].
Qed.

(** X3.  When the cosine that the vectorizer returns lies between 0 and 1,
    the semantic similarity lies between 0 and 100, whatever the texts. *)
Theorem semantic_similarity_in_range (resume_text job_text : option string) :
  (forall a b x, cosine a b = Returned x -> (0 <= x <= 1)%Qc) ->
  (0 <= MlModel.compute_semantic_similarity resume_text job_text <= qc 100)%Qc.
Proof. apply semantic_range_spec. Qed.

Lemma weighted_range (s k e d m : Qc) :
  (0 <= s <= qc 100)%Qc -> (0 <= k <= qc 100)%Qc -> (0 <= e <= qc 100)%Qc ->
  (0 <= d <= qc 100)%Qc -> (0 <= m <= qc 100)%Qc ->
  (0 <= weighted s k e d m <= qc 100)%Qc.
Proof.
  unfold weighted, Qcle. rewrite !this_qc. simpl.
  rewrite !Qred_correct.
  intros [? ?] [? ?] [? ?] [? ?] [? ?].
  change (inject_Z 100) with (100 # 1)%Q in *.
  split; lra.
Qed.

(** X4.  Under the two conditions of X2 and X3 the overall score of the
    result lies between 0 and 100. *)
Theorem overall_score_in_range (r : resume_data) (j : job_data) :
  (forall e, e ∈ default [] (r_experience r) -> 0 <= entry_years e) ->
  0 <= default 0 (j_experience_years j) ->
  (forall a b x, cosine a b = Returned x -> (0 <= x <= 1)%Qc) ->
  (0 <= overall_score (calculate_score r j) <= qc 100)%Qc.
Proof.
  intros He Hj Hcos. rewrite overall_score_eq. apply in_range_0_100.
  apply weighted_range.
  - apply score_skills_range.
  - apply score_keywords_range.
  - apply score_experience_range; [|done].
    by apply total_years_nonneg, extracted_years_nonneg.
  - apply score_education_range.
  - by apply semantic_range_spec.
Qed.

End ResultRanges.

(* ===================================================================== *)
(** ** Which skills and keywords match *)
(* ===================================================================== *)

Section Matching.
Context {order : SetOrder}.
Import ATSScorer.

(** Two skills are the same up to case and surrounding blanks, or similar
    beyond the threshold. *)
Lemma elem_of_found (rs js : gset string) (x : string) :
  x ∈ js ->
  (norm x ∈ exact_matches rs js ∪ fuzzy_matches rs js <->
   exists y, y ∈ rs /\
             (norm x = norm y \/ (threshold < Difflib.ratio (norm x) (norm y))%Qc)).
Proof.
  intros Hx.
  assert (Hjl : norm x ∈ lowered js) by (apply elem_of_lowered; eauto).
  rewrite elem_of_union, elem_of_fuzzy. unfold exact_matches.
  rewrite elem_of_difference, elem_of_intersection. split.
  - intros [[Hr _]|[_ (r & Hr & Hlt)]].
    + apply elem_of_lowered in Hr as (y & Hy & E). eauto.
    + apply elem_of_lowered in Hr as (y & Hy & ->). eauto.
  - intros (y & Hy & [E|Hlt]).
    + left. split; [|done]. apply elem_of_lowered. eauto.
    + destruct (decide (norm x ∈ lowered rs)) as [Hin|Hout]; [by left|].
      right. split; [split; [done|tauto]|].
      exists (norm y). split; [|done]. apply elem_of_lowered. eauto.
Qed.

Lemma matched_skill_spec (rs js : gset string) (x : string) :
  (x ∈ (_score_skills rs js).1.2 <->
   x ∈ js /\ exists y, y ∈ rs /\
     (norm x = norm y \/ (threshold < Difflib.ratio (norm x) (norm y))%Qc)) /\
  (x ∈ (_score_skills rs js).2 <->
   x ∈ js /\ ~ exists y, y ∈ rs /\
     (norm x = norm y \/ (threshold < Difflib.ratio (norm x) (norm y))%Qc)).
Proof.
  unfold _score_skills, is_empty_set. case_bool_decide as Hjs; cbn [fst snd].
  - subst. split; split; set_solver.
  - rewrite elem_of_difference, !elem_of_matched_loop. split.
    + split.
      * intros [Hx Hf]. split; [done|]. by apply (elem_of_found rs js).
      * intros [Hx Hf]. split; [done|]. by apply (elem_of_found rs js).
    + split.
      * intros [Hx Hn]. split; [done|]. intros Hf. apply Hn. split; [done|].
        by apply (elem_of_found rs js).
      * intros [Hx Hn]. split; [done|]. intros [_ Hf]. apply Hn.
        by apply (elem_of_found rs js).
Qed.

(** X5.  A skill is in the matched set of [_score_skills] exactly when it
    is a skill of the job and some skill of the resume is equal to it once
    both are lowercased and stripped, or similar to it with a ratio above
    0.8; every other skill of the job is in the missing set. *)
Theorem matched_skill_iff (rs js : gset string) (x : string) :
  (x ∈ (_score_skills rs js).1.2 <->
   x ∈ js /\ exists y, y ∈ rs /\
     (norm x = norm y \/ (threshold < Difflib.ratio (norm x) (norm y))%Qc)) /\
  (x ∈ (_score_skills rs js).2 <->
   x ∈ js /\ ~ exists y, y ∈ rs /\
     (norm x = norm y \/ (threshold < Difflib.ratio (norm x) (norm y))%Qc)).
Proof. apply matched_skill_spec. Qed.

(** X6.  A keyword is in the matched set of [_score_keywords] exactly when
    it is a keyword of the job and some keyword of the resume is equal to it
    once both are lowercased and stripped. *)
Theorem matched_keyword_iff (rk jk : gset string) (x : string) :
  x ∈ (_score_keywords rk jk).2 <->
  x ∈ jk /\ exists y, y ∈ rk /\ norm x = norm y.
Proof.
  unfold _score_keywords, is_empty_set. case_bool_decide as Hjk; cbn [snd].
  - subst. set_solver.
  - rewrite elem_of_matched_loop, elem_of_intersection, !elem_of_lowered. split.
    + intros [Hx [(y & Hy & E) _]]. eauto.
    + intros [Hx (y & Hy & E)]. split; [done|]. split; eauto.
Qed.

Lemma percent_0 (d : nat) : percent 0 d = 0%Qc.
Proof.
  unfold percent. simpl. unfold Qcdiv.
  replace (qc 0) with 0%Qc by (symmetry; apply qc_0).
  by rewrite !Qcmult_0_l.
Qed.

Lemma percent_full (d : nat) : (0 < d)%nat -> percent d d = qc 100.
Proof.
  intros Hd. unfold percent, Qcdiv. rewrite Qcmult_inv_r, Qcmult_1_l; [done|].
  intros E. assert (H : (0 < qc (Z.of_nat d))%Qc) by (rewrite <- qc_0; apply qc_lt; lia).
  rewrite E in H. by apply Qclt_not_eq in H.
Qed.

Lemma percent_mono (n n' d : nat) : (n <= n')%nat -> (percent n d <= percent n' d)%Qc.
Proof.
  intros H. unfold percent, Qcdiv.
  apply Qcmult_le_compat_r; [|by rewrite <- qc_0; apply qc_le].
  apply Qcmult_le_compat_r; [apply qc_le; lia|].
  destruct d as [|d].
  - replace (qc (Z.of_nat 0)) with 0%Qc by (symmetry; apply qc_0). done.
  - apply Qclt_le_weak, Qcinv_pos. rewrite <- qc_0. apply qc_lt. lia.
Qed.

(** The score of a job with skills, by the number of its lowercased skills
    that are found. *)
Lemma skills_score_formula (rs js : gset string) :
  js <> ∅ ->
  (_score_skills rs js).1.1
  = percent (size (exact_matches rs js ∪ fuzzy_matches rs js)) (size (lowered js)).
Proof.
  intros Hjs. unfold _score_skills, is_empty_set.
  rewrite bool_decide_eq_false_2 by done. cbn [fst].
  pose proof (exact_subseteq_job rs js) as He.
  pose proof (fuzzy_subseteq_remaining rs js) as Hf.
  assert (Hd : exact_matches rs js ## fuzzy_matches rs js) by set_solver.
  assert (Hjl : lowered js <> ∅) by (by rewrite lowered_empty_iff).
  unfold raw_skills_score, is_empty_set.
  rewrite bool_decide_eq_false_2 by done. rewrite <- size_union by done.
  apply min_qc_id, percent_le_100.
  - apply subseteq_size. set_solver.
  - destruct (size (lowered js)) eqn:E; [|lia].
    apply size_empty_inv in E. by apply leibniz_equiv in E.
Qed.

(** X7.  A resume without skills against a job with skills: the score is 0,
    nothing is matched and every skill of the job is missing. *)
Theorem no_resume_skills_scores_zero (js : gset string) :
  js <> ∅ -> _score_skills ∅ js = (0%Qc, ∅, js).
Proof.
  intros Hjs.
  assert (Hm : (_score_skills ∅ js).1.2 = ∅).
  { apply set_eq. intros x. rewrite (proj1 (matched_skill_spec ∅ js x)). set_solver. }
  assert (Hs : (_score_skills ∅ js).1.1 = 0%Qc).
  { rewrite skills_score_formula by done.
    replace (exact_matches ∅ js ∪ fuzzy_matches ∅ js) with (∅ : gset string);
      [by rewrite size_empty, percent_0|].
    symmetry. apply set_eq. intros x. rewrite elem_of_union, elem_of_fuzzy.
    unfold exact_matches. rewrite elem_of_intersection.
    split; [|intros H; by apply elem_of_empty in H].
    intros [[Hr _]|[_ (y & Hr & _)]];
      apply elem_of_lowered in Hr as (z & Hz & _); by apply elem_of_empty in Hz. }
  pose proof (score_skills_sets ∅ js) as H.
  destruct (_score_skills ∅ js) as [[sc matched] missing]. cbn [fst snd] in *.
  destruct H as [_ ->]. subst. f_equal. set_solver.
Qed.

(** X8.  When every skill of the job, lowercased and stripped, is one of
    the resume, the score is 100, every skill of the job is matched and none
    is missing. *)
Theorem all_skills_present_scores_100 (rs js : gset string) :
  js <> ∅ ->
  (forall x, x ∈ js -> exists y, y ∈ rs /\ norm x = norm y) ->
  _score_skills rs js = (qc 100, js, ∅).
Proof.
  intros Hjs Hall.
  assert (Hsub : lowered js ⊆ lowered rs).
  { intros z Hz. apply elem_of_lowered in Hz as (x & Hx & ->).
    destruct (Hall x Hx) as (y & Hy & E). apply elem_of_lowered. eauto. }
  assert (Hm : (_score_skills rs js).1.2 = js).
  { apply set_eq. intros x. rewrite (proj1 (matched_skill_spec rs js x)).
    split; [tauto|]. intros Hx. split; [done|].
    assert (Hn : norm x ∈ lowered rs) by (apply Hsub, elem_of_lowered; eauto).
    apply elem_of_lowered in Hn as (y & Hy & E). eauto. }
  assert (Hs : (_score_skills rs js).1.1 = qc 100).
  { rewrite skills_score_formula by done.
    replace (exact_matches rs js ∪ fuzzy_matches rs js) with (lowered js).
    - apply percent_full. destruct (size (lowered js)) eqn:E; [|lia].
      apply size_empty_inv in E. apply leibniz_equiv in E.
      apply (proj1 (lowered_empty_iff js)) in E. contradiction.
    - pose proof (fuzzy_subseteq_remaining rs js). unfold exact_matches in *.
      apply set_eq. intros x. set_solver. }
  pose proof (score_skills_sets rs js) as H.
  destruct (_score_skills rs js) as [[sc matched] missing]. cbn [fst snd] in *.
  destruct H as [_ ->]. subst. f_equal. set_solver.
Qed.

(** X9.  Adding skills to a resume never lowers its skills score, and never
    turns a matched skill into a missing one. *)
Theorem more_skills_never_score_less (rs rs' js : gset string) :
  rs ⊆ rs' ->
  ((_score_skills rs js).1.1 <= (_score_skills rs' js).1.1)%Qc /\
  (_score_skills rs js).1.2 ⊆ (_score_skills rs' js).1.2.
Proof.
  intros Hsub. split.
  - destruct (decide (js = ∅)) as [->|Hjs].
    { unfold _score_skills, is_empty_set. rewrite !bool_decide_eq_true_2 by done.
      apply Qcle_refl. }
    rewrite !skills_score_formula by done. apply percent_mono, subseteq_size.
    assert (Hl : lowered rs ⊆ lowered rs').
    { intros y Hy. apply elem_of_lowered in Hy as (x & Hx & ->).
      apply elem_of_lowered. eauto. }
    intros x. rewrite !elem_of_union, !elem_of_fuzzy. unfold exact_matches.
    rewrite !elem_of_difference, !elem_of_intersection.
    intros [[Hr Hj]|[[Hj Hn] (y & Hy & Hlt)]].
    + left. split; [by apply Hl|done].
    + destruct (decide (x ∈ lowered rs')); [by left|].
      right. split; [split; [done|tauto]|]. exists y. split; [by apply Hl|done].
  - intros x. rewrite !(proj1 (matched_skill_spec _ js x)).
    intros [Hx (y & Hy & H)]. split; [done|]. exists y. split; [by apply Hsub|done].
Qed.

End Matching.

(* ===================================================================== *)
(** ** Edge cases of the experience and education comparisons *)
(* ===================================================================== *)

Section EdgeCases.
Import ATSScorer.

Lemma qc_inj_0 (n : Z) : qc n = 0%Qc -> n = 0.
Proof.
  intros H. apply (f_equal this) in H. unfold qc in H. simpl in H.
  assert (E : (inject_Z n == 0)%Q) by (rewrite <- (Qred_correct (inject_Z n)), H; done).
  unfold Qeq in E. simpl in E. lia.
Qed.

Lemma extracted_years_zero (l : list exp_entry) :
  (forall e, e ∈ l -> entry_years e = 0) -> extracted_years l = 0.
Proof.
  unfold extracted_years. intros H.
  assert (G : forall acc, foldl (fun total exp => total + entry_years exp) acc l = acc).
  { induction l as [|e l IH]; intros acc; simpl; [done|].
    rewrite IH.
    - rewrite (H e); [lia|apply list_elem_of_here].
    - intros e' He'. apply H. by apply list_elem_of_further. }
  apply G.
Qed.

(** X10.  When no position of a non-empty experience list carries two
    four-digit years in its dates, every position counts for two years. *)
Theorem undated_positions_count_two_years (l : list exp_entry) :
  l <> [] ->
  (forall e, e ∈ l ->
     (length (Re.findall1 false year_pattern (default EmptyString (dates e))) < 2)%nat) ->
  total_years l = 2 * Z.of_nat (length l).
Proof.
  intros Hl Hy. rewrite total_years_estimate; [lia| |done].
  apply extracted_years_zero. intros e He. specialize (Hy e He).
  unfold entry_years. destruct (Re.findall1 _ _ _) as [|y0 [|y1 ys]]; simpl in *; lia.
Qed.

Lemma total_years_zero_iff (l : list exp_entry) : total_years l = 0 <-> l = [].
Proof.
  split.
  - unfold total_years. intros H.
    destruct (Z.eqb_spec (extracted_years l) 0) as [E|E]; simpl in H; [|done].
    destruct l as [|e l]; [done|]. rewrite bool_decide_eq_false_2 in H by done.
    simpl in H. lia.
  - intros ->. done.
Qed.

Lemma experience_score_zero_spec (l : list exp_entry) (required_years : Z) :
  0 < required_years ->
  (_score_experience l required_years = 0%Qc <-> l = []).
Proof.
  intros Hr. rewrite <- total_years_zero_iff. unfold _score_experience.
  destruct (Z.eqb_spec required_years 0) as [|_]; [lia|].
  assert (H100 : qc 100 <> 0%Qc) by (intros E; apply qc_inj_0 in E; lia).
  destruct (Z.leb_spec required_years (total_years l)) as [Hle|Hlt].
  - split; [done|lia].
  - split.
    + intros H. apply Qcmult_integral in H as [H|H]; [|done].
      unfold Qcdiv in H. apply Qcmult_integral in H as [H|H].
      * by apply qc_inj_0.
      * exfalso. assert (Hp : (0 < / qc required_years)%Qc).
        { apply Qcinv_pos. rewrite <- qc_0. apply qc_lt. lia. }
        rewrite H in Hp. by apply Qclt_not_eq in Hp.
    + intros ->. unfold Qcdiv. replace (qc 0) with 0%Qc by (symmetry; apply qc_0).
      by rewrite !Qcmult_0_l.
Qed.

(** X11.  Against a positive number of required years of at most 10^300 the
    experience score is exactly 0 for the empty experience list, and for no
    other.  The code computes the quotient of the two integers in floating
    point; up to that bound the quotient of a total that is not 0 is not
    rounded to 0, so that the score is 0 in the code exactly when the exact
    quotient is. *)
Theorem experience_score_zero_iff (l : list exp_entry) (required_years : Z) :
  0 < required_years <= 10 ^ 300 ->
  (_score_experience l required_years = 0%Qc <-> l = []).
Proof. intros [Hr _]. by apply experience_score_zero_spec. Qed.

Lemma words_nonempty (s : string) :
  forall cur w, w ∈ Py.words_from cur s -> w <> EmptyString.
Proof.
  assert (Hflush : forall (cur : list ascii) w,
             w ∈ match cur with
                 | [] => []
                 | _ => [string_of_list_ascii (rev cur)]
                 end -> w <> EmptyString).
  { intros [|c cur] w Hw; [by apply elem_of_nil in Hw|].
    apply list_elem_of_singleton in Hw as ->. intros E.
    apply (f_equal list_ascii_of_string) in E.
    rewrite list_ascii_of_string_of_list_ascii in E. simpl in E.
    symmetry in E. by apply app_cons_not_nil in E. }
  induction s as [|c s IH]; intros cur w; simpl.
  - apply Hflush.
  - destruct (Py.isspace c).
    + rewrite elem_of_app. intros [Hw|Hw]; [by eapply Hflush|by eapply IH].
    + apply IH.
Qed.

(** X12.  When the resume has no education entry and the job has
    education requirements, the education score is 0. *)
Theorem no_education_scores_zero (job_education : list string) :
  job_education <> [] -> _score_education [] job_education = 0%Qc.
Proof.
  intros Hj. unfold _score_education. destruct job_education as [|e l]; [done|].
  assert (Hm : forall (je : list string) (n : nat),
             foldl (fun (matches : nat) job_edu =>
                      if existsb (fun term => Py.contains term EmptyString)
                                 (take 2 (Py.split_ws (Py.lower job_edu)))
                      then S matches else matches) n je = n).
  { induction je as [|x je IH]; intros n; simpl; [done|].
    replace (existsb _ _) with false; [apply IH|].
    symmetry. apply not_true_is_false. intros H.
    apply existsb_exists in H as (t & Ht & Hc).
    apply list_elem_of_In in Ht. apply elem_of_take in Ht as (i & Ht & _).
    apply list_elem_of_lookup_2 in Ht. apply words_nonempty in Ht.
    by destruct t. }
  unfold edu_matches. change (Py.lower (Py.join " " [])) with EmptyString.
  rewrite (Hm (e :: l) 0%nat), percent_0. apply min_qc_id. apply qc_100_nonneg.
Qed.

End EdgeCases.

(* ===================================================================== *)
(** ** The number of sentences of the rationale *)
(* ===================================================================== *)

Section Rationale.
Context {order : SetOrder}.
Import ATSScorer.

(** X13.  The list of strengths has between one and five sentences, and it
    is the single sentence on a resume that "shows potential" exactly when
    no skill and no keyword matched, the semantic score is below 70, and the
    resume has no experience and no education entry. *)
Theorem strengths_never_empty (resume : resume_data) (job : job_data)
        (matched_skills matched_keywords : gset string) (semantic : Qc) :
  let s := _generate_strengths resume job matched_skills matched_keywords semantic in
  (1 <= length s <= 5)%nat /\
  (s = ["Resume shows potential, but needs more alignment with job requirements"%string]
   <-> size matched_skills = 0%nat /\ size matched_keywords = 0%nat /\
       (semantic < qc 70)%Qc /\
       default [] (r_experience resume) = [] /\
       default [] (r_education resume) = []).
Proof.
  cbn zeta. unfold _generate_strengths, Py.append.
  destruct (Nat.ltb_spec 0 (size matched_skills)) as [Hs|Hs];
    destruct (Nat.leb_spec 5 (size matched_skills)) as [Hs5|Hs5];
    destruct (Nat.ltb_spec 0 (size matched_keywords)) as [Hk|Hk];
    destruct (bool_decide (qc 70 <= semantic)%Qc) eqn:Hm;
    first [apply bool_decide_eq_true in Hm | apply bool_decide_eq_false in Hm];
    destruct (default [] (r_experience resume)) as [|e es];
    destruct (default [] (r_education resume)) as [|d ds];
    cbn [app length String.append];
    (split; [lia|]);
    (split;
     [ intros E; try discriminate E
     | intros (E1 & E2 & E3 & E4 & E5); try lia; try discriminate;
       try (by apply Qclt_nge in E3) ]).
  all: try (repeat split; try lia; try done; by apply Qclt_nge).
Qed.

(** X14.  The list of suggestions has between one and six sentences. *)
Theorem suggestions_between_one_and_six (missing : gset string) (job : job_data)
        (resume : resume_data) (overall semantic : Qc) :
  (1 <= length (_generate_suggestions missing job resume overall semantic) <= 6)%nat.
Proof.
  rewrite suggestions_as_table. unfold suggestion_table, emitted.
  repeat match goal with
         | |- context [is_empty_set ?s] => destruct (is_empty_set s)
         | |- context [bool_decide ?P] => destruct (bool_decide P)
         | |- context [(?a <? ?b)%Z] => destruct (a <? b)%Z
         | |- context [(?a <? ?b)%nat] => destruct (a <? b)%nat
         | |- context [(?a =? ?b)%nat] => destruct (a =? b)%nat
         end;
    cbn [List.filter fst snd map length negb andb]; lia.
Qed.

End Rationale.

(* ===================================================================== *)
(** ** The skills found by the two parsers *)
(* ===================================================================== *)

Section ParsedSkills.
Local Open Scope string_scope.

Lemma keep_items_spec (items : list string) (found : gset string) (x : string) :
  x ∈ foldl (fun found item => ResumeParser.keep_item item found) found items <->
  x ∈ found \/
  exists item, item ∈ items /\ x = Py.strip item /\ (2 < String.length x < 50)%nat.
Proof.
  revert found. induction items as [|i items IH]; intros found; simpl.
  - split; [auto|]. intros [H|(item & Hi & _)]; [done|]. by apply elem_of_nil in Hi.
  - rewrite IH. unfold ResumeParser.keep_item. split.
    + intros [H|(item & Hi & Hx & Hl)].
      * destruct (Nat.ltb_spec 2 (String.length (Py.strip i))); simpl in H; [|auto].
        destruct (Nat.ltb_spec (String.length (Py.strip i)) 50); [|auto].
        apply elem_of_union in H as [H|H]; [|auto].
        apply elem_of_singleton in H as ->. right. exists i.
        split; [apply list_elem_of_here|]. split; [done|lia].
      * right. exists item. split; [by apply list_elem_of_further|done].
    + intros [H|(item & Hi & Hx & Hl)].
      * left. destruct (_ && _); set_solver.
      * apply elem_of_cons in Hi as [->|Hi].
        -- left. subst x.
           destruct (Nat.ltb_spec 2 (String.length (Py.strip i))); [|lia].
           destruct (Nat.ltb_spec (String.length (Py.strip i)) 50); [|lia].
           simpl. set_solver.
        -- right. by exists item.
Qed.

Lemma split_section_spec (section_text : string) (delimiters : list N)
      (found : gset string) (x : string) :
  x ∈ foldl (fun found delimiter =>
               if Py.has_code delimiter section_text
               then foldl (fun found item => ResumeParser.keep_item item found)
                          found (Py.split_at delimiter section_text)
               else found) found delimiters
  <-> x ∈ found \/
      exists delimiter item,
        delimiter ∈ delimiters /\ Py.has_code delimiter section_text = true /\
        item ∈ Py.split_at delimiter section_text /\
        x = Py.strip item /\ (2 < String.length x < 50)%nat.
Proof.
  revert found. induction delimiters as [|d ds IH]; intros found; simpl.
  - split; [auto|]. intros [H|(d & item & Hd & _)]; [done|]. by apply elem_of_nil in Hd.
  - rewrite IH. split.
    + intros [H|(d' & item & Hd & Hrest)].
      * destruct (Py.has_code d section_text) eqn:Hc; [|auto].
        apply keep_items_spec in H as [H|(item & Hi & Hx)]; [auto|].
        right. exists d, item. split; [apply list_elem_of_here|done].
      * right. exists d', item. split; [by apply list_elem_of_further|done].
    + intros [H|(d' & item & Hd & Hc & Hi & Hx)].
      * left. destruct (Py.has_code d section_text); [|done].
        apply keep_items_spec. auto.
      * apply elem_of_cons in Hd as [->|Hd].
        -- left. rewrite Hc. apply keep_items_spec. right. by exists item.
        -- right. by exists d', item.
Qed.

(** X15.  A string is among the skills that [extract_skills] of the resume
    parser returns exactly when it is a skill of the parser's table that
    occurs in the text in any letter case, or it is taken from the skills
    section of the text: the pattern of the section is found, the text it
    captures holds one of the delimiters [,], [;], [|], newline and [/], and
    the string is an item of the captured text split at that delimiter,
    stripped of surrounding white space and of 3 to 49 characters.  So
    without a skills header in the text only skills of the table are
    returned. *)
Theorem resume_skills_from_table_or_tokens (text : string) (x : string) :
  x ∈ ResumeParser.extract_skills text <->
  (x ∈ ResumeParser._get_common_skills /\
   Py.contains (Py.lower x) (Py.lower text) = true)
  \/ (exists skills_match delimiter item,
        Re.search true ResumeParser.skills_pattern text = Some skills_match /\
        delimiter ∈ [44; 59; 124; 10; 47]%N /\
        Py.has_code delimiter (Re.group text 1 skills_match) = true /\
        item ∈ Py.split_at delimiter (Re.group text 1 skills_match) /\
        x = Py.strip item /\
        (2 < String.length x < 50)%nat).
Proof.
  unfold ResumeParser.extract_skills.
  set (table_found :=
         foldl (fun (found : gset string) skill =>
                  if Py.contains (Py.lower skill) (Py.lower text)
                  then {[skill]} ∪ found else found) ∅ ResumeParser._get_common_skills).
  assert (Ht : x ∈ table_found <->
               x ∈ ResumeParser._get_common_skills /\
               Py.contains (Py.lower x) (Py.lower text) = true).
  { unfold table_found.
    rewrite (elem_of_collect (fun skill => Py.contains (Py.lower skill) (Py.lower text))).
    rewrite elem_of_empty. tauto. }
  destruct (Re.search true ResumeParser.skills_pattern text) as [m|].
  - rewrite split_section_spec, Ht. split.
    + intros [H|(d & item & H)]; [by left|]. right. by exists m, d, item.
    + intros [H|(m' & d & item & Hm & H)]; [by left|]. right.
      injection Hm as <-. by exists d, item.
  - rewrite Ht. split; [by left|].
    intros [H|(m & _ & _ & Hm & _)]; [done|discriminate Hm].
Qed.

Lemma add_items_grow (items : list string) (skills : gset string) (x : string) :
  x ∈ skills -> x ∈ foldl JobDescriptionParser.add_item skills items.
Proof.
  revert skills. induction items as [|i items IH]; intros skills H; simpl; [done|].
  apply IH. unfold JobDescriptionParser.add_item. destruct (_ && _); set_solver.
Qed.

Lemma add_items_long (items : list string) (skills : gset string) (x : string) :
  x ∈ foldl JobDescriptionParser.add_item skills items ->
  x ∈ skills \/ (2 < String.length x)%nat.
Proof.
  revert skills. induction items as [|i items IH]; intros skills; simpl; [auto|].
  intros H. apply IH in H as [H|H]; [|auto].
  unfold JobDescriptionParser.add_item in H.
  destruct (Nat.ltb_spec 2 (String.length (Py.strip i))); simpl in H; [|auto].
  destruct (_ <? _)%nat; [|auto].
  apply elem_of_union in H as [H|H]; [|auto].
  apply elem_of_singleton in H as ->. auto.
Qed.

Lemma add_section_grows (skills : gset string) (section_text : string) (x : string) :
  x ∈ skills -> x ∈ JobDescriptionParser.add_section skills section_text.
Proof.
  intros H. unfold JobDescriptionParser.add_section.
  generalize JobDescriptionParser.delimiters. intros ds.
  assert (G : forall acc : gset string, x ∈ acc ->
            x ∈ foldl (fun skills delimiter =>
                         foldl JobDescriptionParser.add_item skills
                               (Py.split_at delimiter section_text)) acc ds).
  { induction ds as [|d ds IH]; intros acc Ha; simpl; [done|].
    apply IH. by apply add_items_grow. }
  apply G. set_solver.
Qed.

Lemma add_section_long (skills : gset string) (section_text : string) (x : string) :
  x ∈ JobDescriptionParser.add_section skills section_text ->
  x ∈ skills \/ (2 < String.length x)%nat.
Proof.
  unfold JobDescriptionParser.add_section.
  generalize JobDescriptionParser.delimiters. intros ds.
  assert (G : forall acc : gset string,
            x ∈ foldl (fun skills delimiter =>
                         foldl JobDescriptionParser.add_item skills
                               (Py.split_at delimiter section_text)) acc ds ->
            x ∈ acc \/ (2 < String.length x)%nat).
  { induction ds as [|d ds IH]; intros acc; simpl; [auto|].
    intros H. apply IH in H as [H|H]; [|auto]. by apply add_items_long in H. }
  intros H. apply G in H as [H|H]; [|auto].
  apply elem_of_union in H as [H|H]; [|auto].
  apply elem_of_list_to_set, list_elem_of_filter in H as [H _]. auto.
Qed.

(** X16.  [_extract_skills] of the job parser returns, title-cased, every
    skill of its table that occurs in the lowercased text; and every skill
    it returns is such a title-cased skill of the table or has more than 2
    characters. *)
Theorem job_skills_from_table_or_long (text : string) :
  (forall skill, skill ∈ JobDescriptionParser.common_skills ->
                 Py.contains skill (Py.lower text) = true ->
                 Py.title skill ∈ JobDescriptionParser._extract_skills text) /\
  (forall x, x ∈ JobDescriptionParser._extract_skills text ->
             (exists skill, skill ∈ JobDescriptionParser.common_skills /\
                            Py.contains skill (Py.lower text) = true /\
                            x = Py.title skill)
             \/ (2 < String.length x)%nat).
Proof.
  unfold JobDescriptionParser._extract_skills.
  set (table_found :=
         foldl (fun (skills : gset string) skill =>
                  if Py.contains skill (Py.lower text)
                  then {[Py.title skill]} ∪ skills else skills)
               ∅ JobDescriptionParser.common_skills).
  assert (Ht : forall x, x ∈ table_found <->
               exists skill, skill ∈ JobDescriptionParser.common_skills /\
                             Py.contains skill (Py.lower text) = true /\
                             x = Py.title skill).
  { intros x. unfold table_found. generalize JobDescriptionParser.common_skills.
    intros l.
    assert (G : forall acc : gset string,
              x ∈ foldl (fun (skills : gset string) skill =>
                           if Py.contains skill (Py.lower text)
                           then {[Py.title skill]} ∪ skills else skills) acc l
              <-> x ∈ acc \/ exists skill, skill ∈ l /\
                     Py.contains skill (Py.lower text) = true /\ x = Py.title skill).
    { induction l as [|s l IH]; intros acc; simpl.
      - split; [auto|]. intros [H|(s & Hs & _)]; [done|by apply elem_of_nil in Hs].
      - rewrite IH. destruct (Py.contains s (Py.lower text)) eqn:Hc.
        + rewrite elem_of_union, elem_of_singleton. split.
          * intros [[->|H]|(k & Hk & Hkc & E)]; auto.
            -- right. exists s. split; [apply list_elem_of_here|done].
            -- right. exists k. split; [by apply list_elem_of_further|done].
          * intros [H|(k & Hk & Hkc & E)]; auto.
            apply elem_of_cons in Hk as [->|Hk]; [by left; left|].
            right. by exists k.
        + split.
          * intros [H|(k & Hk & Hkc & E)]; auto.
            right. exists k. split; [by apply list_elem_of_further|done].
          * intros [H|(k & Hk & Hkc & E)]; auto.
            apply elem_of_cons in Hk as [->|Hk]; [congruence|].
            right. by exists k. }
    rewrite G, elem_of_empty. tauto. }
  generalize JobDescriptionParser.skills_patterns. intros ps.
  assert (Ggrow : forall (acc : gset string) x, x ∈ acc ->
            x ∈ foldl (fun skills pattern =>
                         foldl (fun skills m =>
                                  JobDescriptionParser.add_section skills (Re.group text 1 m))
                               skills (Re.finditer true pattern text)) acc ps).
  { induction ps as [|p ps IH]; intros acc x Hx; simpl; [done|].
    apply IH. generalize (Re.finditer true p text). intros ms. revert acc Hx.
    induction ms as [|m ms IHm]; intros acc Hx; simpl; [done|].
    apply IHm. by apply add_section_grows. }
  assert (Glong : forall (acc : gset string) x,
            x ∈ foldl (fun skills pattern =>
                         foldl (fun skills m =>
                                  JobDescriptionParser.add_section skills (Re.group text 1 m))
                               skills (Re.finditer true pattern text)) acc ps ->
            x ∈ acc \/ (2 < String.length x)%nat).
  { clear Ggrow. induction ps as [|p ps IH]; intros acc x; simpl; [auto|].
    intros H. apply IH in H as [H|H]; [|auto].
    revert H. generalize (Re.finditer true p text). intros ms. revert acc.
    induction ms as [|m ms IHm]; intros acc; simpl; [auto|].
    intros H. apply IHm in H as [H|H]; [|auto]. by apply add_section_long in H. }
  split.
  - intros skill Hs Hc. apply Ggrow, Ht. eauto.
  - intros x H. apply Glong in H as [H|H]; [|auto]. left. by apply Ht.
Qed.

End ParsedSkills.

(* ===================================================================== *)
(** ** The experience entries, the section lists and the keywords *)
(* ===================================================================== *)

Section ParsedLists.
Local Open Scope string_scope.

Lemma no_header_no_step (st : ResumeParser.exp_state) (line : string) :
  ResumeParser.in_experience_section st = false ->
  Re.search true ResumeParser.experience_header (Py.strip line) = None ->
  ResumeParser.exp_step st line = st.
Proof.
  intros Hin Hs. unfold ResumeParser.exp_step. by rewrite Hs, Hin.
Qed.

(** X17.  When no line of the text, stripped, contains one of the words
    that open an experience section, [extract_experience] returns no
    entry, whatever dates the text holds. *)
Theorem experience_needs_header (text : string) :
  (forall line, line ∈ Py.split_at 10 text ->
                Re.search true ResumeParser.experience_header (Py.strip line) = None) ->
  ResumeParser.extract_experience text = [].
Proof.
  unfold ResumeParser.extract_experience. generalize (Py.split_at 10 text).
  intros lines H.
  assert (G : foldl ResumeParser.exp_step (ResumeParser.ExpState false None []) lines
              = ResumeParser.ExpState false None []).
  { induction lines as [|l lines IH]; simpl; [done|].
    rewrite no_header_no_step; [|done|apply H, list_elem_of_here].
    apply IH. intros line Hl. apply H. by apply list_elem_of_further. }
  by rewrite G.
Qed.

(** The loop of [extract_experience] keeps every entry, closed or open,
    dated, and makes no more entries than it reads lines. *)
Lemma exp_step_invariant (st : ResumeParser.exp_state) (line : string) (n : nat) :
  Forall dated (ResumeParser.close_entry st) ->
  (length (ResumeParser.close_entry st) <= n)%nat ->
  Forall dated (ResumeParser.close_entry (ResumeParser.exp_step st line)) /\
  (length (ResumeParser.close_entry (ResumeParser.exp_step st line)) <= S n)%nat.
Proof.
  intros Hd Hl. unfold ResumeParser.exp_step.
  destruct (Re.search true ResumeParser.experience_header _).
  { unfold ResumeParser.close_entry in *. simpl. split; [done|lia]. }
  destruct (_ && _); [|split; [done|lia]].
  destruct (Re.search true ResumeParser.date_pattern _).
  { unfold ResumeParser.close_entry at 1 3. cbn [ResumeParser.current_entry
      ResumeParser.experience]. rewrite length_app. simpl. split; [|lia].
    apply Forall_app. split; [done|]. constructor; [by eexists|constructor]. }
  destruct st as [ins [e|] exps]; simpl; [|split; [done|lia]].
  unfold ResumeParser.close_entry in *. simpl in *.
  rewrite length_app in *. simpl in *. split; [|lia].
  apply Forall_app in Hd as [Hd1 Hd2]. apply Forall_app. split; [done|].
  inversion Hd2; subst. constructor; [done|constructor].
Qed.

(** X18.  Every entry that [extract_experience] returns has its dates,
    and it returns at most as many entries as the text has lines. *)
Theorem experience_entries_are_dated (text : string) :
  Forall (fun e => is_Some (dates e)) (ResumeParser.extract_experience text) /\
  (length (ResumeParser.extract_experience text) <= length (Py.split_at 10 text))%nat.
Proof.
  unfold ResumeParser.extract_experience. generalize (Py.split_at 10 text).
  intros lines.
  assert (G : forall st n,
            Forall dated (ResumeParser.close_entry st) ->
            (length (ResumeParser.close_entry st) <= n)%nat ->
            Forall dated (ResumeParser.close_entry (foldl ResumeParser.exp_step st lines)) /\
            (length (ResumeParser.close_entry (foldl ResumeParser.exp_step st lines))
             <= n + length lines)%nat).
  { induction lines as [|l lines IH]; intros st n Hd Hl; simpl.
    - split; [done|lia].
    - destruct (exp_step_invariant st l n Hd Hl) as [Hd' Hl'].
      destruct (IH _ _ Hd' Hl') as [H1 H2]. split; [done|lia]. }
  apply (G _ 0%nat); [constructor|simpl; lia].
Qed.

Lemma add_lines_long (section_text : string) (found : list string) :
  Forall (fun x => (10 < String.length x)%nat) found ->
  Forall (fun x => (10 < String.length x)%nat)
         (JobSectionLists.add_lines found section_text).
Proof.
  unfold JobSectionLists.add_lines. generalize (Py.split_at 10 section_text).
  intros lines. revert found. induction lines as [|l lines IH]; intros found Hf; simpl.
  - done.
  - apply IH. destruct (negb _); simpl; [|done].
    destruct (Nat.ltb_spec 10 (String.length (Py.strip l))); [|done].
    unfold Py.append. apply Forall_app. split; [done|]. by constructor.
Qed.

Lemma section_lines_bounded (patterns : list Re.regex) (text : string) :
  (length (JobSectionLists.section_lines patterns text) <= 10)%nat /\
  Forall (fun x => (10 < String.length x)%nat)
         (JobSectionLists.section_lines patterns text) /\
  ((forall p, p ∈ patterns -> Re.search true p text = None) ->
   JobSectionLists.section_lines patterns text = []).
Proof.
  unfold JobSectionLists.section_lines. split; [rewrite length_take; lia|]. split.
  - apply Forall_take.
    assert (G : forall found,
              Forall (fun x => (10 < String.length x)%nat) found ->
              Forall (fun x => (10 < String.length x)%nat)
                (foldl (fun found pattern =>
                          match Re.search true pattern text with
                          | Some m => JobSectionLists.add_lines found (Re.group text 1 m)
                          | None => found
                          end) found patterns)).
    { induction patterns as [|p ps IH]; intros found Hf; simpl; [done|].
      apply IH. destruct (Re.search true p text); [by apply add_lines_long|done]. }
    apply G. constructor.
  - intros Hnone.
    assert (G : forall found : list string,
              foldl (fun found pattern =>
                       match Re.search true pattern text with
                       | Some m => JobSectionLists.add_lines found (Re.group text 1 m)
                       | None => found
                       end) found patterns = found).
    { induction patterns as [|p ps IH]; intros found; simpl; [done|].
      rewrite (Hnone p) by apply list_elem_of_here.
      apply IH. intros q Hq. apply Hnone. by apply list_elem_of_further. }
    by rewrite G.
Qed.

(** X19.  [_extract_responsibilities] and [_extract_qualifications] each
    return at most 10 lines, every one of more than 10 characters, and
    return none when the text has none of their section headers. *)
Theorem job_sections_bounded (text : string) :
  ((length (JobSectionLists._extract_responsibilities text) <= 10)%nat /\
   Forall (fun x => (10 < String.length x)%nat)
          (JobSectionLists._extract_responsibilities text) /\
   ((forall p, p ∈ JobSectionLists.responsibility_patterns ->
               Re.search true p text = None) ->
    JobSectionLists._extract_responsibilities text = [])) /\
  ((length (JobSectionLists._extract_qualifications text) <= 10)%nat /\
   Forall (fun x => (10 < String.length x)%nat)
          (JobSectionLists._extract_qualifications text) /\
   ((forall p, p ∈ JobSectionLists.qualification_patterns ->
               Re.search true p text = None) ->
    JobSectionLists._extract_qualifications text = [])).
Proof. split; apply section_lines_bounded. Qed.

Lemma size_list_to_set_le (l : list string) :
  (size (list_to_set l : gset string) <= length l)%nat.
Proof.
  induction l as [|x l IH].
  - rewrite list_to_set_nil, size_empty. simpl. lia.
  - rewrite list_to_set_cons, size_union_alt, size_singleton.
    assert (size (list_to_set l ∖ {[x]} : gset string)
            <= size (list_to_set l : gset string))%nat
      by (apply subseteq_size; set_solver).
    simpl. lia.
Qed.

(** X20.  Without a language pipeline, [extract_keywords] returns at most
    50 keywords. *)
Theorem fallback_keywords_at_most_50 (text : string) :
  (size (ResumeParser.extract_keywords None text) <= 50)%nat.
Proof.
  unfold ResumeParser.extract_keywords.
  etransitivity; [apply size_list_to_set_le|]. rewrite length_take. lia.
Qed.

End ParsedLists.

(* ===================================================================== *)
(** ** File names: what the upload check accepts, the parser reads *)
(* ===================================================================== *)

Section FileNames.
Context {R : DocumentReader}.
Import Files.
Local Open Scope string_scope.

Lemma lower_char_dot (c : ascii) :
  (Py.code (Py.lower_char c) =? 46)%N = (Py.code c =? 46)%N.
Proof. destruct c as [[] [] [] [] [] [] [] []]; by vm_compute. Qed.

Lemma lower_char_is_dot (c : ascii) : Py.lower_char c = "."%char -> c = "."%char.
Proof. destruct c as [[] [] [] [] [] [] [] []]; vm_compute; congruence. Qed.

Lemma has_dot_lower (s : string) : Py.has_code 46 (Py.lower s) = Py.has_code 46 s.
Proof. induction s as [|c s IH]; simpl; [done|]. by rewrite lower_char_dot, IH. Qed.

Lemma after_last_dot_none (s : string) :
  after_last_dot s = None <-> Py.has_code 46 s = false.
Proof.
  induction s as [|c s IH]; simpl; [done|].
  destruct (after_last_dot s) as [e|].
  - split; [done|]. intros H. apply orb_false_iff in H as [_ H].
    apply IH in H. done.
  - destruct (Py.code c =? 46)%N; simpl; [done|]. split; [|done].
    intros _. by apply IH.
Qed.

(** The lowercased name ends with a dot and [ext] exactly when what follows
    its last dot is [ext] up to case. *)
Lemma endswith_extension (ext : string) (s : string) :
  Py.has_code 46 ext = false ->
  (endswith (String "." ext) (Py.lower s) = true
   <-> exists e, after_last_dot s = Some e /\ Py.lower e = ext).
Proof.
  intros Hext. induction s as [|c s IH]; cbn [Py.lower endswith after_last_dot].
  - rewrite orb_false_r. split; [|by intros (e & H & _)].
    intros H. apply String.eqb_eq in H. discriminate H.
  - rewrite orb_true_iff, IH. split.
    + intros [H|(e & He & El)].
      * apply String.eqb_eq in H. injection H as Hc Hs.
        symmetry in Hc. apply lower_char_is_dot in Hc. subst c.
        assert (Hn : after_last_dot s = None).
        { apply after_last_dot_none. by rewrite <- has_dot_lower, <- Hs. }
        rewrite Hn. replace (Py.code "." =? 46)%N with true by done. eauto.
      * rewrite He. eauto.
    + destruct (after_last_dot s) as [e'|].
      * intros (e & [= <-] & El). right. eauto.
      * destruct (Py.code c =? 46)%N eqn:Hc; [|by intros (e & H & _)].
        intros (e & [= <-] & El). left. apply String.eqb_eq. f_equal; [|done].
        revert Hc. destruct c as [[] [] [] [] [] [] [] []]; vm_compute; congruence.
Qed.

Lemma allowed_file_spec (filename : string) :
  allowed_file filename = true <->
  exists e, after_last_dot filename = Some e /\
            (Py.lower e = "pdf" \/ Py.lower e = "docx" \/ Py.lower e = "doc").
Proof.
  unfold allowed_file, ALLOWED_EXTENSIONS. destruct (after_last_dot filename) as [e|].
  - rewrite bool_decide_eq_true, !elem_of_union, !elem_of_singleton. split.
    + intros [[H|H]|H]; exists e; auto.
    + intros (e' & [= <-] & [H|[H|H]]); auto.
  - split; [done|]. by intros (e & H & _).
Qed.

(** X21.  [extract_text] raises its error for an unsupported format exactly
    on the file names that [allowed_file] refuses: a name is read as a
    document exactly when it has a dot and what follows its last dot is
    "pdf", "docx" or "doc" in any letter case.  So [parse] never fails on the
    format of a file that passed the upload check. *)
Theorem upload_check_agrees_with_parser (nlp : option (string -> gset string))
        (file_path : string) :
  (extract_text file_path = UnsupportedFormat <-> allowed_file file_path = false) /\
  (allowed_file file_path = true -> parse nlp file_path <> inl UnsupportedFormat).
Proof.
  assert (Hpdf := endswith_extension "pdf" file_path eq_refl).
  assert (Hdocx := endswith_extension "docx" file_path eq_refl).
  assert (Hdoc := endswith_extension "doc" file_path eq_refl).
  assert (Hiff : extract_text file_path = UnsupportedFormat
                 <-> allowed_file file_path = false).
  { rewrite <- not_true_iff_false, allowed_file_spec. unfold extract_text.
    destruct (endswith ".pdf" (Py.lower file_path)).
    { split; [by destruct (_extract_from_pdf file_path)|].
      intros H. exfalso. apply H. destruct (proj1 Hpdf eq_refl) as (e & He & El). eauto. }
    destruct (endswith ".docx" (Py.lower file_path)).
    { split; [by destruct (_extract_from_docx file_path)|].
      intros H. exfalso. apply H. destruct (proj1 Hdocx eq_refl) as (e & He & El). eauto. }
    destruct (endswith ".doc" (Py.lower file_path)).
    { split; [by destruct (_extract_from_docx file_path)|].
      intros H. exfalso. apply H. destruct (proj1 Hdoc eq_refl) as (e & He & El). eauto. }
    simpl. split; [|done]. intros _ (e & He & [El|[El|El]]).
    - assert (false = true) by (apply Hpdf; eauto). done.
    - assert (false = true) by (apply Hdocx; eauto). done.
    - assert (false = true) by (apply Hdoc; eauto). done. }
  split; [done|]. intros Ha Hp. unfold parse in Hp.
  destruct (extract_text file_path); try discriminate Hp.
  pose proof (proj1 Hiff eq_refl) as Hf. congruence.
Qed.

End FileNames.

(* ===================================================================== *)
(** ** A resume without experience entries *)
(* ===================================================================== *)

Section MissingExperience.
Context {order : SetOrder} {V : Vectorizer}.
Import ATSScorer.

Lemma suggestions_eq (r : resume_data) (j : job_data) :
  exists missing overall semantic,
    suggestions (calculate_score r j)
    = _generate_suggestions missing j r overall semantic.
Proof.
  unfold calculate_score.
  destruct (_score_skills _ _) as [[? ?] missing].
  destruct (_score_keywords _ _) as [? ?]. by eexists _, _, _.
Qed.

(** X22.  The result carries the sentence that the job requires so many
    years of experience exactly when the job asks for more than 0 years and
    the resume has no experience entry; and in that case its experience
    score is 0. *)
Theorem missing_experience_is_reported (r : resume_data) (j : job_data) :
  let required_years := default 0 (j_experience_years j) in
  let res := calculate_score r j in
  (visibility_sentence required_years ∈ suggestions res
   <-> 0 < required_years /\ default [] (r_experience r) = []) /\
  (0 < required_years -> default [] (r_experience r) = [] ->
   experience_score res = 0%Qc).
Proof.
  cbn zeta. split.
  - destruct (suggestions_eq r j) as (missing & overall & semantic & ->).
    rewrite suggestions_as_table, elem_of_emitted. unfold suggestion_table.
    rewrite !elem_of_cons, elem_of_nil.
    assert (Hcond : (0 <? default 0 (j_experience_years j))
                    && (length (default [] (r_experience r)) =? 0)%nat = true
                    <-> 0 < default 0 (j_experience_years j)
                        /\ default [] (r_experience r) = []).
    { rewrite andb_true_iff, Z.ltb_lt, Nat.eqb_eq.
      split; intros [H1 H2]; (split; [done|]).
      - by destruct (default [] (r_experience r)).
      - by rewrite H2. }
    rewrite <- Hcond. split.
    + intros [E|[E|[E|[E|[E|[E|[E|[]]]]]]]];
        try (apply (f_equal snd) in E; cbn [snd] in E;
             unfold missing_sentence, low_sentence, mid_sentence, semantic_sentence,
               visibility_sentence, keywords_sentence, formatting_sentence in E;
             cbn [String.append] in E; discriminate E).
      apply (f_equal fst) in E. by cbn [fst] in E.
    + intros H. do 4 right. left. by rewrite H.
  - intros Hr He. rewrite experience_score_eq, He.
    rewrite (proj2 (experience_score_zero_spec [] _ Hr) eq_refl). apply round_0.
Qed.

End MissingExperience.

(* ===================================================================== *)
(** ** Instances of the further theorems *)
(* ===================================================================== *)

Lemma dated_experience_ordered :
  forall e, e ∈ default [] (r_experience dated_resume) -> 0 <= ATSScorer.entry_years e.
Proof.
  intros e He. simpl in He. unfold dated_experience in He.
  apply elem_of_cons in He as [->|He]; [by vm_compute|].
  apply elem_of_cons in He as [->|He]; [by vm_compute|].
  by apply elem_of_nil in He.
Defined.

Lemma quarter_is_a_cosine :
  forall a b x, cosine (Vectorizer := quarter_vectorizer) a b = Returned x ->
                (0 <= x <= 1)%Qc.
Proof. intros a b x [= <-]. split; by vm_compute. Defined.

(** X2 on two positions dated 2018 - 2021 and 2021 - 2024. *)
Lemma experience_score_in_range_witness :
  (0 <= experience_score
          (@ATSScorer.calculate_score elements_order failing_vectorizer
             dated_resume java_job) <= qc 100)%Qc.
Proof.
  apply (@experience_score_in_range elements_order failing_vectorizer
           dated_resume java_job dated_experience_ordered).
  by vm_compute.
Defined.

(** X3 with a vectorizer that always returns 1/4. *)
Lemma semantic_similarity_in_range_witness :
  (0 <= MlModel.compute_semantic_similarity (V := quarter_vectorizer)
          (Some "JAVA developer"%string) (Some "Java wanted"%string) <= qc 100)%Qc.
Proof.
  exact (@semantic_similarity_in_range quarter_vectorizer _ _ quarter_is_a_cosine).
Defined.

(** X4 on the same resume and vectorizer. *)
Lemma overall_score_in_range_witness :
  (0 <= overall_score
          (@ATSScorer.calculate_score elements_order quarter_vectorizer
             dated_resume java_job) <= qc 100)%Qc.
Proof.
  apply (@overall_score_in_range elements_order quarter_vectorizer
           dated_resume java_job dated_experience_ordered).
  - by vm_compute.
  - exact quarter_is_a_cosine.
Defined.

Lemma java_is_a_skill : ({[ "Java"%string ]} : gset string) <> ∅.
Proof. intros H. assert (Hin : "Java"%string ∈ (∅ : gset string)) by (by rewrite <- H; vm_compute). by vm_compute in Hin. Defined.

(** X7 on a job that asks for Java. *)
Lemma no_resume_skills_witness :
  @ATSScorer._score_skills elements_order ∅ {[ "Java"%string ]}
  = (0%Qc, ∅, {[ "Java"%string ]}).
Proof. exact (@no_resume_skills_scores_zero elements_order _ java_is_a_skill). Defined.

(** X8 on a resume that writes "JAVA". *)
Lemma all_skills_present_witness :
  @ATSScorer._score_skills elements_order {[ "JAVA"%string ]} {[ "Java"%string ]}
  = (qc 100, {[ "Java"%string ]}, ∅).
Proof.
  apply (@all_skills_present_scores_100 elements_order _ _ java_is_a_skill).
  intros x Hx. exists "JAVA"%string. split; [by vm_compute|].
  assert (E : x = "Java"%string) by (by apply elem_of_singleton in Hx).
  rewrite E. reflexivity.
Defined.

(** X9 from no skill to the skill "JAVA". *)
Lemma more_skills_witness :
  ((@ATSScorer._score_skills elements_order ∅ {[ "Java"%string ]}).1.1
   <= (@ATSScorer._score_skills elements_order {[ "JAVA"%string ]} {[ "Java"%string ]}).1.1)%Qc.
Proof.
  apply (@more_skills_never_score_less elements_order ∅ {[ "JAVA"%string ]}).
  intros x Hx. by vm_compute in Hx.
Defined.

(** X10 on a position dated "Jan 2020 - Present" and one without dates. *)
Lemma undated_positions_witness :
  ATSScorer.total_years undated_experience = 4.
Proof.
  apply (undated_positions_count_two_years undated_experience).
  - discriminate.
  - intros e He. unfold undated_experience in He.
    apply elem_of_cons in He as [->|He]; [vm_compute; lia|].
    apply elem_of_cons in He as [->|He]; [vm_compute; lia|].
    by apply elem_of_nil in He.
Defined.

(** X11 with 3 required years: no position scores 0, one position does
    not. *)
Lemma experience_score_zero_witness :
  ATSScorer._score_experience [] 3 = 0%Qc /\
  ATSScorer._score_experience same_year_experience 3 <> 0%Qc.
Proof.
  assert (Hr : 0 < 3 <= 10 ^ 300) by (split; [lia|by vm_compute]).
  split.
  - apply (experience_score_zero_iff [] 3 Hr). reflexivity.
  - intros H. apply (experience_score_zero_iff same_year_experience 3 Hr) in H.
    discriminate H.
Defined.

(** X12 on a job that asks for a master's degree. *)
Lemma no_education_witness :
  ATSScorer._score_education [] ["Master of Science"%string] = 0%Qc.
Proof. apply (no_education_scores_zero ["Master of Science"%string]). discriminate. Defined.

(** X15 on the resume text of the scenario: a skill of the table, and an
    item of the section that starts after the word Skilled, split at the
    commas. *)
Lemma resume_skills_witness :
  "Python"%string ∈ ResumeParser.extract_skills scenario_resume_text /\
  "ed in Python"%string ∈ ResumeParser.extract_skills scenario_resume_text.
Proof.
  split.
  - apply (proj2 (resume_skills_from_table_or_tokens scenario_resume_text "Python")).
    left. split; [apply list_elem_of_here|by vm_compute].
  - apply (proj2 (resume_skills_from_table_or_tokens scenario_resume_text
                    "ed in Python")).
    right.
    destruct (Re.search true ResumeParser.skills_pattern scenario_resume_text)
      as [m|] eqn:Hm; [|by vm_compute in Hm].
    assert (Hg : option_map (Re.group scenario_resume_text 1)
                   (Re.search true ResumeParser.skills_pattern scenario_resume_text)
                 = Some "ed in Python, SQL, 2019 - 2022 Software Engineer"%string)
      by (by vm_compute).
    rewrite Hm in Hg. injection Hg as Hg.
    exists m, 44%N, "ed in Python"%string. rewrite Hg.
    split; [done|].
    split; [apply list_elem_of_here|].
    split; [by vm_compute|].
    split.
    { replace (Py.split_at 44 "ed in Python, SQL, 2019 - 2022 Software Engineer")
        with ["ed in Python"; " SQL"; " 2019 - 2022 Software Engineer"]%string
        by (by vm_compute).
      apply list_elem_of_here. }
    split; [by vm_compute|]. vm_compute. lia.
Defined.

(** X16 on the job text of the scenario. *)
Lemma job_skills_witness :
  "Java"%string ∈ JobDescriptionParser._extract_skills scenario_job_text.
Proof.
  apply (proj1 (job_skills_from_table_or_long scenario_job_text) "java"%string).
  - apply list_elem_of_further, list_elem_of_here.
  - reflexivity.
Defined.

(** X17 on the resume text of the scenario, which has dates and no header. *)
Lemma experience_needs_header_witness :
  ResumeParser.extract_experience scenario_resume_text = [].
Proof.
  apply (experience_needs_header scenario_resume_text).
  intros line Hl. apply list_elem_of_singleton in Hl. rewrite Hl. reflexivity.
Defined.

(** X19 on a text without any section header. *)
Lemma job_sections_witness :
  JobSectionLists._extract_responsibilities "We build software."%string = [].
Proof.
  apply (proj1 (job_sections_bounded "We build software."%string)).
  intros p Hp. apply list_elem_of_singleton in Hp. rewrite Hp. reflexivity.
Defined.

(** X21 on a file name in capitals. *)
Lemma upload_check_witness :
  Files.allowed_file "resume.PDF"%string = true /\
  Files.parse (R := no_reader) None "resume.PDF"%string <> inl UnsupportedFormat.
Proof.
  split; [reflexivity|].
  apply (proj2 (@upload_check_agrees_with_parser no_reader None "resume.PDF"%string)).
  reflexivity.
Defined.

(** X22 on a resume without entries and a job that asks for one year. *)
Lemma missing_experience_witness :
  experience_score
    (@ATSScorer.calculate_score elements_order failing_vectorizer java_resume java_job)
  = 0%Qc.
Proof.
  apply (proj2 (@missing_experience_is_reported elements_order failing_vectorizer
                  java_resume java_job)); [reflexivity|reflexivity].
Defined.
